(** * TwitchApi: a shallow embedding of [TwitchApi.py]

    The client talks to the platform through [requests] and reads decoded
    JSON bodies.  The embedding keeps the Python data as it is at run time:
    untyped JSON values, dictionaries in insertion order, exceptions as an
    error result, and the side effects (requests issued, the [.env] file)
    as explicit state.

    Outside the program and taken as parameters: the platform (what a
    request is answered with), the process environment, the matches of the
    URL pattern, and the order in which a Python set is enumerated.
    Logging and [print_exc] leave no trace in the model. *)

From Stdlib Require Import ZArith List String Ascii Bool Lia Permutation.
From stdpp Require Import base list.
Import ListNotations.

Local Open Scope string_scope.
Local Open Scope Z_scope.
Local Open Scope list_scope.

(** ** JSON values

    What [Response.json()] hands back.  Numbers are the integers (the
    counts the platform sends: [viewer_count], [view_count], [total]);
    a string is one [ascii] per character, for the characters with a
    code point below 256.  A [dict] keeps its keys in
    insertion order, as a Python dict does. *)

#[warnings="-register-all"]
Inductive json : Type :=
| JNull
| JBool (b : bool)
| JInt (n : Z)
| JStr (s : string)
| JList (l : list json)
| JDict (d : list (string * json)).

Abbreviation dict := (list (string * json)).

(** ** Exceptions

    The classes that can reach the handlers of this module.  [requests]
    derives [SSLError], [ProxyError] and [ConnectTimeout] from its
    [ConnectionError]; [ReadTimeout] and [JSONDecodeError] are outside it.
    [KeyboardInterrupt] and [SystemExit] are [BaseException]s: only a bare
    [except:] stops them. *)

Inductive exn : Type :=
| SSLError
| ProxyError
| ConnectTimeout
| ConnectionError
| ReadTimeout
| JSONDecodeError
| KeyError
| IndexError
| TypeError
| AttributeError
| KeyboardInterrupt
| SystemExit (msg : string).

Inductive result (A : Type) : Type :=
| Ok (a : A)
| Err (e : exn).

Arguments Ok {A} a.
Arguments Err {A} e.

Definition is_SSLError (e : exn) : bool :=
  match e with SSLError => true | _ => false end.

Definition is_ConnectionError (e : exn) : bool :=
  match e with
  | ConnectionError | SSLError | ProxyError | ConnectTimeout => true
  | _ => false
  end.

Definition is_KeyError (e : exn) : bool :=
  match e with KeyError => true | _ => false end.

(** ** The pure error monad (expressions that touch no state) *)

Definition rbind {A B} (r : result A) (k : A -> result B) : result B :=
  match r with
  | Ok a => k a
  | Err e => Err e
  end.

Declare Scope py_scope.
Delimit Scope py_scope with py.

Notation "x <-? r ;; k" := (rbind r (fun x => k))
  (at level 100, r at next level, right associativity) : py_scope.

Local Open Scope py_scope.

(** ** Python operations on JSON values *)

Module Py.

(** [d[k]] on a Python dict, as a partial lookup. *)
Fixpoint dict_get {V : Type} (k : string) (d : list (string * V)) : option V :=
  match d with
  | [] => None
  | (k', v) :: d' => if String.eqb k k' then Some v else dict_get k d'
  end.

(** [d[k] = v]: an existing key keeps its place, a new key goes last. *)
Fixpoint dict_set {V : Type} (k : string) (v : V) (d : list (string * V))
  : list (string * V) :=
  match d with
  | [] => [(k, v)]
  | (k', v') :: d' =>
      if String.eqb k k' then (k, v) :: d' else (k', v') :: dict_set k v d'
  end.

Definition dict_has {V : Type} (k : string) (d : list (string * V)) : bool :=
  match dict_get k d with Some _ => true | None => false end.

(** [v == s] for a string literal [s]. *)
Definition eq_str (v : json) (s : string) : bool :=
  match v with
  | JStr t => String.eqb t s
  | _ => false
  end.

(** Truth value of [if v:]. *)
Definition truthy (v : json) : bool :=
  match v with
  | JNull => false
  | JBool b => b
  | JInt n => negb (n =? 0)
  | JStr s => negb (String.eqb s EmptyString)
  | JList l => match l with [] => false | _ => true end
  | JDict d => match d with [] => false | _ => true end
  end.

(** [v[k]] with a string subscript. *)
Definition getitem (v : json) (k : string) : result json :=
  match v with
  | JDict d =>
      match dict_get k d with
      | Some x => Ok x
      | None => Err KeyError
      end
  | _ => Err TypeError
  end.

Definition chars (s : string) : list json :=
  map (fun c => JStr (String c EmptyString)) (list_ascii_of_string s).

(** [v[i]] with an integer subscript (negative subscripts count from the
    end).  A decoded JSON object has string keys only. *)
Definition index_list {A : Type} (l : list A) (i : Z) : option A :=
  let n := Z.of_nat (length l) in
  if (0 <=? i) && (i <? n) then nth_error l (Z.to_nat i)
  else if (- n <=? i) && (i <? 0) then nth_error l (Z.to_nat (n + i))
  else None.

Definition getitem_int (v : json) (i : Z) : result json :=
  match v with
  | JList l =>
      match index_list l i with Some x => Ok x | None => Err IndexError end
  | JStr s =>
      match index_list (chars s) i with Some x => Ok x | None => Err IndexError end
  | JDict _ => Err KeyError
  | _ => Err TypeError
  end.

(** The items a [for] loop (or a comprehension) runs over. *)
Definition iter (v : json) : result (list json) :=
  match v with
  | JList l => Ok l
  | JDict d => Ok (map (fun kv => JStr (fst kv)) d)
  | JStr s => Ok (chars s)
  | _ => Err TypeError
  end.

(** [len(v)]. *)
Definition len (v : json) : result Z :=
  match v with
  | JList l => Ok (Z.of_nat (length l))
  | JDict d => Ok (Z.of_nat (length d))
  | JStr s => Ok (Z.of_nat (String.length s))
  | _ => Err TypeError
  end.

(** [v > n] for an integer literal [n]; [bool] is a subclass of [int]. *)
Definition gt (v : json) (n : Z) : result bool :=
  match v with
  | JInt m => Ok (n <? m)
  | JBool b => Ok (n <? (if b then 1 else 0))
  | _ => Err TypeError
  end.

Fixpoint is_substring (p s : string) : bool :=
  if String.prefix p s then true
  else match s with
       | EmptyString => false
       | String _ s' => is_substring p s'
       end.

(** [k in v] for a string literal [k]: key of a dict, element of a list,
    substring of a string. *)
Definition contains (k : string) (v : json) : result bool :=
  match v with
  | JDict d => Ok (dict_has k d)
  | JList l => Ok (existsb (fun x => eq_str x k) l)
  | JStr s => Ok (is_substring k s)
  | _ => Err TypeError
  end.

(** [str.lower()] on one character: the letters A-Z and, above them, the
    capital letters at 192-222 (215, the multiplication sign, is none)
    move up by 32; every other character below 256 stays. *)
Definition lower_char (c : ascii) : ascii :=
  let n := nat_of_ascii c in
  if ((Nat.leb 65 n && Nat.leb n 90)
      || (Nat.leb 192 n && Nat.leb n 222 && negb (Nat.eqb n 215)))%bool
  then ascii_of_nat (n + 32)
  else c.

Fixpoint lower_string (s : string) : string :=
  match s with
  | EmptyString => EmptyString
  | String c s' => String (lower_char c) (lower_string s')
  end.

(** [v.lower()]: a method of [str] only. *)
Definition lower (v : json) : result string :=
  match v with
  | JStr s => Ok (lower_string s)
  | _ => Err AttributeError
  end.

(** List comprehension with a condition that may raise. *)
Fixpoint filter_raising {A : Type} (p : A -> result bool) (l : list A)
  : result (list A) :=
  match l with
  | [] => Ok []
  | x :: l' =>
      b <-? p x ;;
      rest <-? filter_raising p l' ;;
      Ok (if b then x :: rest else rest)
  end.

End Py.

(** ** Requests and the state they act on *)

Inductive method : Type := GET | POST.

(** One call of [requests.get] or [requests.post]: the URL, the headers,
    the [params] or [data] argument, and the [timeout] argument. *)
Record request : Type := Request {
  rq_method : method;
  rq_url : string;
  rq_headers : dict;
  rq_payload : json;
  rq_timeout : option Z
}.

(** What a run changes: the requests issued so far, oldest first, and the
    [.env] file behind [set_key]. *)
Record state : Type := State {
  st_log : list request;
  st_dotenv : list (string * string)
}.

(** Effectful code: it reads and writes the state and returns or raises. *)
Definition M (A : Type) : Type := state -> result A * state.

Definition ret {A} (a : A) : M A := fun s => (Ok a, s).

Definition raise {A} (e : exn) : M A := fun s => (Err e, s).

Definition bind {A B} (m : M A) (k : A -> M B) : M B :=
  fun s =>
    match m s with
    | (Ok a, s') => k a s'
    | (Err e, s') => (Err e, s')
    end.

Definition lift {A} (r : result A) : M A := fun s => (r, s).

(** [try: body  except <classes>: handler].  An exception outside the
    listed classes goes on to the caller. *)
Definition try_except {A} (body : M A) (classes : exn -> bool) (handler : M A) : M A :=
  fun s =>
    match body s with
    | (Ok a, s') => (Ok a, s')
    | (Err e, s') => if classes e then handler s' else (Err e, s')
    end.

(** A bare [except:] takes every exception. *)
Definition any_exception (e : exn) : bool := true.

Notation "x <- m ;; k" := (bind m (fun x => k))
  (at level 100, m at next level, right associativity) : py_scope.

Notation "m ;;; k" := (bind m (fun _ => k))
  (at level 100, right associativity) : py_scope.

Definition none_or_str (o : option string) : json :=
  match o with
  | Some s => JStr s
  | None => JNull
  end.

(** The client object built by [__init__]. *)
Record TwitchApi : Type := Build_TwitchApi {
  app_info : dict;
  headers : dict
}.

(** ** Hashable values and [set(...)]

    Lists and dicts are unhashable.  Equal keys are one element:
    [True == 1] and [False == 0]. *)

Inductive hkey : Type :=
| HNone
| HNum (n : Z)
| HStr (s : string).

Definition hkey_eqb (a b : hkey) : bool :=
  match a, b with
  | HNone, HNone => true
  | HNum n, HNum m => n =? m
  | HStr s, HStr t => String.eqb s t
  | _, _ => false
  end.

Definition hash_key (v : json) : result hkey :=
  match v with
  | JNull => Ok HNone
  | JBool b => Ok (HNum (if b then 1 else 0))
  | JInt n => Ok (HNum n)
  | JStr s => Ok (HStr s)
  | JList _ | JDict _ => Err TypeError
  end.

(** The elements of [set(l)] in order of first insertion; [seen] holds the
    keys already in the set. *)
Fixpoint set_from (seen : list hkey) (l : list json) : result (list json) :=
  match l with
  | [] => Ok []
  | x :: l' =>
      k <-? hash_key x ;;
      rest <-? set_from (k :: seen) l' ;;
      Ok (if existsb (hkey_eqb k) seen then rest else x :: rest)
  end.

Section Client.

(** The process environment after [load_dotenv()], and the platform:
    the outcome of [requests.<method>(...).json()] for a request, given
    the requests that went before. *)
Variable getenv : string -> option string.
Variable respond : list request -> request -> result json.

(** [re.findall] with the URL pattern of [get_panel_links], on a string.
    The pattern has no capturing group, so the matches are substrings. *)
Variable findall : string -> list string.

(** The order in which [list(set(...))] enumerates a set.  Python leaves
    it unspecified; it is some rearrangement of the elements. *)
Variable set_order : list json -> list json.
Hypothesis set_order_perm : forall l, Permutation (set_order l) l.

Definition send (rq : request) : M json :=
  fun s => (respond (st_log s) rq,
            {| st_log := st_log s ++ [rq]; st_dotenv := st_dotenv s |}).

(** [set_key(".env", k, v)]: upsert in the [.env] file. *)
Definition set_key (k v : string) : M unit :=
  fun s => (Ok tt,
            {| st_log := st_log s; st_dotenv := Py.dict_set k v (st_dotenv s) |}).

(** *** get_token *)

Definition validate_request (saved_token : string) : request :=
  {| rq_method := GET;
     rq_url := "https://id.twitch.tv/oauth2/validate";
     rq_headers := [("Authorization", JStr (String.append "OAuth " saved_token))];
     rq_payload := JNull;
     rq_timeout := None |}.

Definition token_request : request :=
  {| rq_method := POST;
     rq_url := "https://id.twitch.tv/oauth2/token";
     rq_headers := [];
     rq_payload :=
       JDict [("client_id", none_or_str (getenv "CLIENT_ID"));
              ("client_secret", none_or_str (getenv "CLIENT_SECRET"));
              ("grant_type", JStr "client_credentials");
              ("scope", JStr "analytics:read:games")];
     rq_timeout := None |}.

(** Lines 51-65: ask for a token, save it, or exit.  [set_key] calls a
    [str] method on the value, so a token that is not a string raises
    [AttributeError] before anything is written. *)
Definition request_new_token : M string :=
  r <- send token_request ;;
  found <- lift (Py.contains "access_token" r) ;;
  if (found : bool) then
    tok <- lift (Py.getitem r "access_token") ;;
    match tok with
    | JStr t => set_key "ACCESS_TOKEN" t ;;; ret t
    | _ => raise AttributeError
    end
  else raise (SystemExit "Unable to generate access token").

Definition get_token : M string :=
  match getenv "ACCESS_TOKEN" with
  | Some saved_token =>
      if Py.truthy (JStr saved_token) then
        r <- send (validate_request saved_token) ;;
        valid <- lift (Py.contains "client_id" r) ;;
        if (valid : bool) then ret saved_token else request_new_token
      else request_new_token
  | None => request_new_token
  end.

(** *** __init__ *)

Definition __init__ : M TwitchApi :=
  let client_id := none_or_str (getenv "CLIENT_ID") in
  let client_secret := none_or_str (getenv "CLIENT_SECRET") in
  token <- get_token ;;
  ret {| app_info := [("Client-ID", client_id);
                      ("client_secret", client_secret);
                      ("token", JStr token)];
         headers := [("Client-ID", client_id);
                     ("Authorization", JStr (String.append "Bearer " token))] |}.

(** *** get_top_streams *)

Definition streams_request (self : TwitchApi) : request :=
  {| rq_method := GET;
     rq_url := "https://api.twitch.tv/helix/streams";
     rq_headers := headers self;
     rq_payload :=
       JDict [("game_id",
               JList [JList [JStr "id"; JStr "459931"];
                      JList [JStr "id"; JStr "2083"]])];
     rq_timeout := Some 10 |}.

(** The condition of the comprehension: [s["viewer_count"] > 100].  The
    docstring and the comment beside it speak of 200 viewers; the number
    compared with is 100. *)
Definition over_100 (s : json) : result bool :=
  vc <-? Py.getitem s "viewer_count" ;;
  Py.gt vc 100.

Definition top_streams_handled (e : exn) : bool :=
  is_SSLError e || is_ConnectionError e || is_KeyError e.

(** [[s for s in r["data"] if s["viewer_count"] > 100]]. *)
Definition streams_over_100 (r : json) : result (list json) :=
  data <-? Py.getitem r "data" ;;
  items <-? Py.iter data ;;
  Py.filter_raising over_100 items.

Definition get_top_streams (self : TwitchApi) : M (list json) :=
  try_except
    (r <- send (streams_request self) ;;
     lift (streams_over_100 r))
    top_streams_handled
    (ret []).

(** *** get_video_count, get_follower_count *)

Definition videos_request (self : TwitchApi) (user_id : json) : request :=
  {| rq_method := GET;
     rq_url := "https://api.twitch.tv/helix/videos";
     rq_headers := headers self;
     rq_payload := JDict [("user_id", user_id)];
     rq_timeout := Some 10 |}.

(** [len(r["data"])]. *)
Definition data_length (r : json) : result json :=
  data <-? Py.getitem r "data" ;;
  n <-? Py.len data ;;
  Ok (JInt n).

Definition get_video_count (self : TwitchApi) (user_id : json) : M json :=
  try_except
    (r <- send (videos_request self user_id) ;;
     lift (data_length r))
    any_exception
    (ret (JInt 10000)).

Definition follows_request (self : TwitchApi) (user_id : json) : request :=
  {| rq_method := GET;
     rq_url := "https://api.twitch.tv/helix/users/follows";
     rq_headers := headers self;
     rq_payload := JDict [("to_id", user_id)];
     rq_timeout := Some 10 |}.

Definition get_follower_count (self : TwitchApi) (user_id : json) : M json :=
  try_except
    (r <- send (follows_request self user_id) ;;
     lift (Py.getitem r "total"))
    any_exception
    (ret (JInt 10000000)).

(** *** get_stream_details *)

(** One item of the dict comprehension: the key, then the value. *)
Definition summary (s : json) : result (string * dict) :=
  name <-? Py.getitem s "user_name" ;;
  key <-? Py.lower name ;;
  user_id <-? Py.getitem s "user_id" ;;
  viewer_count <-? Py.getitem s "viewer_count" ;;
  title <-? Py.getitem s "title" ;;
  thumbnail <-? Py.getitem s "thumbnail_url" ;;
  started <-? Py.getitem s "started_at" ;;
  name' <-? Py.getitem s "user_name" ;;
  display <-? Py.lower name' ;;
  Ok (key, [("user_id", user_id);
            ("viewer_count", viewer_count);
            ("title", title);
            ("thumbnail", thumbnail);
            ("started", started);
            ("display", JStr display)]).

Fixpoint build_stream_info (streams : list json) (acc : list (string * dict))
  : result (list (string * dict)) :=
  match streams with
  | [] => Ok acc
  | s :: rest =>
      kv <-? summary s ;;
      build_stream_info rest (Py.dict_set (fst kv) (snd kv) acc)
  end.

Definition users_request (self : TwitchApi) (stream_info : list (string * dict))
  : request :=
  {| rq_method := GET;
     rq_url := "https://api.twitch.tv/helix/users";
     rq_headers := headers self;
     rq_payload :=
       JList (map (fun kv => JList [JStr "login"; JStr (fst kv)]) stream_info);
     rq_timeout := Some 10 |}.

(** [stream_info[login]]: the key under which the entry lives.  [info]
    is an alias of that entry, so the writes below go through the key. *)
Definition entry_of (stream_info : list (string * dict)) (login : json)
  : result string :=
  match login with
  | JStr k => if Py.dict_has k stream_info then Ok k else Err KeyError
  | JList _ | JDict _ => Err TypeError
  | _ => Err KeyError
  end.

(** [info[field] = v], with [info = stream_info[k]]. *)
Definition info_set (k field : string) (v : json)
    (stream_info : list (string * dict)) : list (string * dict) :=
  match Py.dict_get k stream_info with
  | Some info => Py.dict_set k (Py.dict_set field v info) stream_info
  | None => stream_info
  end.

(** [info[field]], with [info = stream_info[k]]. *)
Definition info_get (k field : string) (stream_info : list (string * dict))
  : result json :=
  match Py.dict_get k stream_info with
  | Some info =>
      match Py.dict_get field info with
      | Some v => Ok v
      | None => Err KeyError
      end
  | None => Err KeyError
  end.

(** The body of the [for result in r["data"]] loop. *)
Definition enrich_one (self : TwitchApi) (stream_info : list (string * dict))
    (result : json) : M (list (string * dict)) :=
  login <- lift (Py.getitem result "login") ;;
  k <- lift (entry_of stream_info login) ;;
  tier <- lift (Py.getitem result "broadcaster_type") ;;
  let stream_info := info_set k "broadcaster_type" tier stream_info in
  views <- lift (Py.getitem result "view_count") ;;
  let stream_info := info_set k "channel_views" views stream_info in
  tier' <- lift (info_get k "broadcaster_type" stream_info) ;;
  if Py.eq_str tier' EmptyString then
    user_id <- lift (info_get k "user_id" stream_info) ;;
    followers <- get_follower_count self user_id ;;
    let stream_info := info_set k "followers" followers stream_info in
    user_id' <- lift (info_get k "user_id" stream_info) ;;
    videos <- get_video_count self user_id' ;;
    ret (info_set k "videos" videos stream_info)
  else ret stream_info.

Fixpoint enrich (self : TwitchApi) (results : list json)
    (stream_info : list (string * dict)) : M (list (string * dict)) :=
  match results with
  | [] => ret stream_info
  | result :: rest =>
      stream_info' <- enrich_one self stream_info result ;;
      enrich self rest stream_info'
  end.

(** The body of the [try]: the bulk users call and the loop over its
    records. *)
Definition enrich_from_users (self : TwitchApi) (stream_info : list (string * dict))
  : M (list (string * dict)) :=
  r <- send (users_request self stream_info) ;;
  data <- lift (Py.getitem r "data") ;;
  results <- lift (Py.iter data) ;;
  enrich self results stream_info.

(** The dict comprehension runs before the [try] is entered. *)
Definition get_stream_details (self : TwitchApi) (streams : list json)
  : M (list (string * dict)) :=
  stream_info <- lift (build_stream_info streams []) ;;
  try_except
    (enrich_from_users self stream_info)
    any_exception
    (ret []).

(** *** get_panel_links *)

Definition panels_request (user_id : json) : request :=
  {| rq_method := POST;
     rq_url := "https://gql.twitch.tv/gql";
     rq_headers :=
       [("Client-ID", JStr "kimne78kx3ncx6brgo4mv6wki5h1ko");
        ("User-Agent",
         JStr (String.append
                 "Mozilla/5.0 (Windows NT 10.0; Win64; x64) AppleWebKit/537.36 "
                 "(KHTML, like Gecko) Chrome/70.0.3538.77 Safari/537.36"))];
     rq_payload :=
       JList
         [JDict
            [("operationName", JStr "ChannelPanels");
             ("variables", JDict [("id", user_id)]);
             ("extensions",
              JDict
                [("persistedQuery",
                  JDict
                    [("version", JInt 1);
                     ("sha256Hash",
                      JStr "236b0ec07489e5172ee1327d114172f27aceca206a1a8053106d60926a7f622e")])])]];
     rq_timeout := None |}.

(** [findall(url_regex, v)]: the pattern wants a string. *)
Definition re_findall (v : json) : result (list json) :=
  match v with
  | JStr s => Ok (map JStr (findall s))
  | _ => Err TypeError
  end.

(** The body of the [for panel in ...] loop. *)
Definition panel_links (links : list json) (panel : json) : result (list json) :=
  url <-? Py.getitem panel "linkURL" ;;
  let links := if Py.truthy url then links ++ [url] else links in
  description <-? Py.getitem panel "description" ;;
  if Py.truthy description then
    matches <-? re_findall description ;;
    Ok (match matches with [] => links | _ => links ++ matches end)
  else Ok links.

Fixpoint collect_links (panels : list json) (links : list json)
  : result (list json) :=
  match panels with
  | [] => Ok links
  | panel :: rest =>
      links' <-? panel_links links panel ;;
      collect_links rest links'
  end.

(** [list(set(links))]. *)
Definition list_set (links : list json) : result (list json) :=
  elems <-? set_from [] links ;;
  Ok (set_order elems).

(** [r[0]["data"]["user"]["panels"]]. *)
Definition panels_of (r : json) : result json :=
  first <-? Py.getitem_int r 0 ;;
  data <-? Py.getitem first "data" ;;
  user <-? Py.getitem data "user" ;;
  Py.getitem user "panels".

(** The [try] holds the POST and the decoding of its body, nothing more;
    its handler returns [[]] at once ([None] below). *)
Definition get_panel_links (user_id : json) : M (list json) :=
  fetched <- try_except
               (r <- send (panels_request user_id) ;; ret (Some r))
               any_exception
               (ret None) ;;
  match fetched with
  | None => ret []
  | Some r =>
      lift (panels <-? panels_of r ;;
            items <-? Py.iter panels ;;
            links <-? collect_links items [] ;;
            list_set links)
  end.

End Client.

(** * Properties *)

(** The state after one more request. *)
Definition logged (rq : request) (s : state) : state :=
  {| st_log := st_log s ++ [rq]; st_dotenv := st_dotenv s |}.

(** The failures after which [get_top_streams] answers with no streams:
    a TLS or connection error of the transport, or a decoded body that is
    an object without a "data" field.  A body that is no object (an array,
    null, a string, a number) is not among them: its subscript raises
    [TypeError], which the [except] clause does not list. *)
Inductive listing_failure : result json -> Prop :=
| tls_or_connection_error (e : exn) :
    is_SSLError e || is_ConnectionError e = true ->
    listing_failure (Err e)
| no_data_field (d : dict) :
    Py.dict_get "data" d = None ->
    listing_failure (Ok (JDict d)).

(** Every record carries an integer viewer count. *)
Definition counted (data : list json) : Prop :=
  forall x, In x data -> exists n, Py.getitem x "viewer_count" = Ok (JInt n).

(** ** Sample data *)

Definition s0 : state := {| st_log := []; st_dotenv := [] |}.

Definition self0 : TwitchApi :=
  {| app_info := [("Client-ID", JStr "app"); ("client_secret", JStr "secret");
                  ("token", JStr "tok")];
     headers := [("Client-ID", JStr "app"); ("Authorization", JStr "Bearer tok")] |}.

(** A platform that gives the same outcome to every request. *)
Definition always (r : result json) : list request -> request -> result json :=
  fun _ _ => r.

Definition sample_stream (user_id name : string) (viewers : Z) : json :=
  JDict [("user_id", JStr user_id); ("user_name", JStr name);
         ("viewer_count", JInt viewers); ("title", JStr "live");
         ("thumbnail_url", JStr "https://t/x.jpg");
         ("started_at", JStr "2020-01-01T00:00:00Z")].

Definition boundary_response : json :=
  JDict [("data", JList [sample_stream "1" "Ann" 100; sample_stream "2" "Bob" 101])].

(** A record that has a name and nothing else. *)
Definition bare_stream : json := JDict [("user_name", JStr "Cy")].

(** A response in which the second record has no viewer count. *)
Definition ragged_response : json :=
  JDict [("data", JList [sample_stream "2" "Bob" 101; bare_stream])].

(** C1 as the specification words it: whatever the platform answers, a
    stream of the answer with at most 100 viewers is left out of the
    returned list, and one with more than 100 viewers is in it. *)
Definition threshold_on_every_response : Prop :=
  forall (respond : list request -> request -> result json)
         (self : TwitchApi) (s : state) (r : json) (data : list json)
         (x : json) (n : Z),
    respond (st_log s) (streams_request self) = Ok r ->
    Py.getitem r "data" = Ok (JList data) ->
    In x data ->
    Py.getitem x "viewer_count" = Ok (JInt n) ->
    (n <= 100 ->
     forall l, fst (get_top_streams respond self s) = Ok l -> ~ In x l)
    /\ (100 < n ->
        exists l, fst (get_top_streams respond self s) = Ok l /\ In x l).

(** The body is an object that has a "data" field. *)
Definition has_data_field (r : json) : bool :=
  match r with
  | JDict d => Py.dict_has "data" d
  | _ => false
  end.

(** C6 as the specification words it: after a TLS or connection error,
    and for every decoded body that lacks a "data" field, the call returns
    the empty list. *)
Definition empty_whenever_data_missing : Prop :=
  forall (respond : list request -> request -> result json)
         (self : TwitchApi) (s : state),
    (forall e,
        respond (st_log s) (streams_request self) = Err e ->
        is_SSLError e || is_ConnectionError e = true ->
        fst (get_top_streams respond self s) = Ok [])
    /\ (forall r,
          respond (st_log s) (streams_request self) = Ok r ->
          has_data_field r = false ->
          fst (get_top_streams respond self s) = Ok []).

(** *** Credential acquisition *)

(** The validation call found the stored token stale: there is no stored
    token to validate, or the answer lacks "client_id". *)
Definition refresh_needed (getenv : string -> option string)
    (respond : list request -> request -> result json) (s : state) : Prop :=
  match getenv "ACCESS_TOKEN" with
  | Some saved =>
      if Py.truthy (JStr saved) then
        match respond (st_log s) (validate_request saved) with
        | Ok r => Py.contains "client_id" r = Ok false
        | Err _ => False
        end
      else True
  | None => True
  end.

(** The requests on record when the token request goes out. *)
Definition log_before_refresh (getenv : string -> option string) (s : state)
  : list request :=
  match getenv "ACCESS_TOKEN" with
  | Some saved =>
      if Py.truthy (JStr saved) then st_log s ++ [validate_request saved]
      else st_log s
  | None => st_log s
  end.

Definition is_token_request (rq : request) : bool :=
  String.eqb (rq_url rq) "https://id.twitch.tv/oauth2/token".

(** How many token requests a log holds. *)
Definition refresh_calls (log : list request) : nat :=
  length (List.filter is_token_request log).

(** An environment with a stored token. *)
Definition env_with_token (k : string) : option string :=
  if String.eqb k "ACCESS_TOKEN" then Some "old"
  else if String.eqb k "CLIENT_ID" then Some "app"
  else if String.eqb k "CLIENT_SECRET" then Some "secret"
  else None.

(** A platform that accepts the stored token. *)
Definition accepting : list request -> request -> result json :=
  always (Ok (JDict [("client_id", JStr "app"); ("expires_in", JInt 5000)])).

(** A platform that rejects the stored token and issues the token "new". *)
Definition renewing (log : list request) (rq : request) : result json :=
  match rq_method rq with
  | GET => Ok (JDict [("status", JInt 401); ("message", JStr "invalid access token")])
  | POST => Ok (JDict [("access_token", JStr "new"); ("expires_in", JInt 5000)])
  end.

(** A platform that rejects the stored token and issues none. *)
Definition refusing : list request -> request -> result json :=
  always (Ok (JDict [("status", JInt 403); ("message", JStr "invalid client secret")])).

(** *** Panel links *)

(** The answer for a channel with one panel that has a link and a
    description. *)
Definition sample_panel (url description : string) : json :=
  JDict [("id", JStr "1"); ("type", JStr "DEFAULT");
         ("linkURL", JStr url); ("description", JStr description)].

Definition one_panel_response (url description : string) : json :=
  JList [JDict [("data",
    JDict [("user",
      JDict [("id", JStr "7");
             ("panels", JList [sample_panel url description])])])]].

(** The answer for a channel that does not exist. *)
Definition no_user_response : json :=
  JList [JDict [("data", JDict [("user", JNull)])]].

(** C5 as the specification words it: a decoded body without the panel
    structure gives the empty list, like a transport failure. *)
Definition panel_links_absorb_bad_shape : Prop :=
  forall (respond : list request -> request -> result json)
         (findall : string -> list string)
         (set_order : list json -> list json)
         (user_id : json) (s : state) (r : json) (e : exn),
    respond (st_log s) (panels_request user_id) = Ok r ->
    panels_of r = Err e ->
    fst (get_panel_links respond findall set_order user_id s) = Ok [].

(** What the URL pattern of [get_panel_links] finds in the sample texts
    used below: "https://a.com" and "www.b.org" in the first, nothing in
    "no link here".  It stands for the pattern on these texts only. *)
Definition sample_findall (text : string) : list string :=
  if String.eqb text "see https://a.com and www.b.org"
  then ["https://a.com"; "www.b.org"]
  else [].

(** *** Stream details *)

Definition tier (info : dict) : option json :=
  Py.dict_get "broadcaster_type" info.

(** The follower and video counts sit in an entry exactly when its tier is
    the empty string. *)
Definition consistent (info : dict) : Prop :=
  (Py.dict_has "followers" info = true <-> tier info = Some (JStr EmptyString))
  /\ (Py.dict_has "videos" info = true <-> tier info = Some (JStr EmptyString)).

(** An entry as the comprehension leaves it. *)
Definition untouched (info : dict) : Prop :=
  tier info = None
  /\ Py.dict_has "followers" info = false
  /\ Py.dict_has "videos" info = false.

(** The per-user requests that one record of the users answer causes. *)
Definition extra_lookups (self : TwitchApi) (stream_info : list (string * dict))
    (record : json) : list request :=
  match Py.getitem record "login", Py.getitem record "broadcaster_type" with
  | Ok (JStr k), Ok t =>
      if Py.eq_str t EmptyString then
        match info_get k "user_id" stream_info with
        | Ok user_id => [follows_request self user_id; videos_request self user_id]
        | Err _ => []
        end
      else []
  | _, _ => []
  end.

(** C2 as the specification words it: in whatever mapping comes back, an
    entry (there is one, so the mapping is not empty) has its follower and
    video counts exactly when its tier is the empty string. *)
Definition enrichment_on_every_response : Prop :=
  forall (respond : list request -> request -> result json)
         (self : TwitchApi) (streams : list json) (s : state)
         (m : list (string * dict)) (k : string) (info : dict),
    fst (get_stream_details respond self streams s) = Ok m ->
    Py.dict_get k m = Some info ->
    consistent info.

(** C3 as the specification words it: an exception at any stage gives the
    empty mapping, so the call never raises. *)
Definition details_absorb_every_exception : Prop :=
  forall (respond : list request -> request -> result json)
         (self : TwitchApi) (streams : list json) (s : state),
    (forall e, build_stream_info streams [] = Err e ->
               fst (get_stream_details respond self streams s) = Ok [])
    /\ exists m, fst (get_stream_details respond self streams s) = Ok m.

(** A record of the users answer on which the loop body raises before it
    reaches the per-user lookups: a field is missing, or the login is not
    a key of the mapping. *)
Definition bad_record (stream_info : list (string * dict)) (record : json) : Prop :=
  (exists e, Py.getitem record "login" = Err e)
  \/ (exists login e, Py.getitem record "login" = Ok login
                      /\ entry_of stream_info login = Err e)
  \/ (exists e, Py.getitem record "broadcaster_type" = Err e)
  \/ (exists e, Py.getitem record "view_count" = Err e).

Definition user_record (login tier : string) : json :=
  JDict [("id", JStr "7"); ("login", JStr login);
         ("broadcaster_type", JStr tier); ("view_count", JInt 12)].

(** A platform that answers the users call with [records], the follows
    call with a total of 40 and the videos call with three videos. *)
Definition platform (records : list json) (log : list request) (rq : request)
  : result json :=
  if String.eqb (rq_url rq) "https://api.twitch.tv/helix/users"
  then Ok (JDict [("data", JList records)])
  else if String.eqb (rq_url rq) "https://api.twitch.tv/helix/users/follows"
  then Ok (JDict [("total", JInt 40); ("data", JList [])])
  else Ok (JDict [("data", JList [JDict []; JDict []; JDict []])]).

Definition sample_streams : list json :=
  [sample_stream "1" "Ann" 500; sample_stream "2" "Bob" 300].

(** *** Further sample data *)

(** An environment with no stored token. *)
Definition env_without_token (k : string) : option string :=
  if String.eqb k "CLIENT_ID" then Some "app"
  else if String.eqb k "CLIENT_SECRET" then Some "secret"
  else None.

(** A store that already holds another setting. *)
Definition s1 : state :=
  {| st_log := []; st_dotenv := [("CLIENT_ID", "app")] |}.

(** A number as [>] takes it: an [int], or a [bool]. *)
Definition numeric (v : json) : bool :=
  match v with
  | JInt _ | JBool _ => true
  | _ => false
  end.

(** A response in which one viewer count is a string. *)
Definition quoted_count_response : json :=
  JDict [("data",
          JList [sample_stream "1" "Ann" 500;
                 JDict [("user_name", JStr "Bob"); ("viewer_count", JStr "150")]])].


(** The fields that the loop writes into an entry. *)
Definition enrichment_fields : list string :=
  ["broadcaster_type"; "channel_views"; "followers"; "videos"].

(** A follower or video lookup. *)
Definition is_lookup (rq : request) : bool :=
  String.eqb (rq_url rq) "https://api.twitch.tv/helix/users/follows"
  || String.eqb (rq_url rq) "https://api.twitch.tv/helix/videos".


(** Where a returned link comes from: it is the truthy "linkURL" of the
    panel, or a match of the pattern in its non-empty description. *)
Definition from_panel (findall : string -> list string) (panel x : json) : Prop :=
  (Py.getitem panel "linkURL" = Ok x /\ Py.truthy x = true)
  \/ (exists d u, Py.getitem panel "description" = Ok (JStr d)
                  /\ d <> EmptyString
                  /\ x = JStr u
                  /\ In u (findall d)).

Definition text_or_null (v : json) : bool :=
  match v with
  | JNull | JStr _ => true
  | _ => false
  end.

(** A panel as the platform sends it: the link and the description are
    strings or null. *)
Definition plain_panel (panel : json) : Prop :=
  exists url description,
    Py.getitem panel "linkURL" = Ok url
    /\ Py.getitem panel "description" = Ok description
    /\ text_or_null url = true
    /\ text_or_null description = true.

(** The answer for a channel with the given panels. *)
Definition panels_response (panels : list json) : json :=
  JList [JDict [("data", JDict [("user", JDict [("panels", JList panels)])])]].

Definition null_panel : json :=
  JDict [("linkURL", JNull); ("description", JNull)].

(** ** Auxiliary lemmas *)

Section FilterRaising.

Context {A : Type} (p : A -> result bool).

Lemma filter_raising_sublist (l l' : list A) :
  Py.filter_raising p l = Ok l' -> sublist l' l.
Proof.
  revert l'. induction l as [|x l IH]; simpl; intros l' H.
  - injection H as <-. constructor.
  - destruct (p x) as [b|e]; simpl in H; [|discriminate].
    destruct (Py.filter_raising p l) as [rest|e]; simpl in H; [|discriminate].
    injection H as <-.
    destruct b; [apply sublist_skip | apply sublist_cons]; apply IH; reflexivity.
Qed.

Lemma filter_raising_kept (l l' : list A) :
  Py.filter_raising p l = Ok l' -> forall x, In x l' -> p x = Ok true.
Proof.
  revert l'. induction l as [|x l IH]; simpl; intros l' H y Hy.
  - injection H as <-. destruct Hy.
  - destruct (p x) as [b|e] eqn:Hp; simpl in H; [|discriminate].
    destruct (Py.filter_raising p l) as [rest|e]; simpl in H; [|discriminate].
    injection H as <-.
    destruct b; [destruct Hy as [<-|Hy]|]; eauto.
Qed.

Lemma filter_raising_total (l : list A) :
  (forall x, In x l -> exists b, p x = Ok b) ->
  exists l', Py.filter_raising p l = Ok l' /\
             forall x, In x l -> p x = Ok true -> In x l'.
Proof.
  induction l as [|x l IH]; simpl; intros Hall.
  - exists []. split; [reflexivity | intros x []].
  - destruct (Hall x (or_introl eq_refl)) as [b Hb].
    destruct IH as [rest [Hrest Hin]]; [intros y Hy; apply Hall; right; exact Hy|].
    rewrite Hb, Hrest. simpl.
    exists (if b then x :: rest else rest). split; [reflexivity|].
    intros y [<-|Hy] Hpy.
    + rewrite Hb in Hpy. injection Hpy as ->. left. reflexivity.
    + destruct b; [right|]; apply Hin; assumption.
Qed.

End FilterRaising.

Section TopStreams.

Variable respond : list request -> request -> result json.

(** How a run of [get_top_streams] ends, case by case. *)
Lemma get_top_streams_run (self : TwitchApi) (s : state) :
  get_top_streams respond self s =
  (match rbind (respond (st_log s) (streams_request self)) streams_over_100 with
   | Ok l => Ok l
   | Err e => if top_streams_handled e then Ok [] else Err e
   end,
   logged (streams_request self) s).
Proof.
  unfold get_top_streams, try_except, bind, send, lift, ret, logged.
  destruct (respond (st_log s) (streams_request self)) as [r|e]; simpl.
  - destruct (streams_over_100 r) as [l|e]; simpl; [reflexivity|].
    destruct (top_streams_handled e); reflexivity.
  - destruct (top_streams_handled e); reflexivity.
Qed.

Lemma streams_over_100_sublist (r : json) (data l : list json) :
  Py.getitem r "data" = Ok (JList data) ->
  streams_over_100 r = Ok l ->
  sublist l data.
Proof.
  unfold streams_over_100. intros -> H. simpl in H.
  eapply filter_raising_sublist. exact H.
Qed.

Lemma streams_over_100_kept (r : json) (l : list json) (x : json) :
  streams_over_100 r = Ok l -> In x l -> over_100 x = Ok true.
Proof.
  unfold streams_over_100.
  destruct (Py.getitem r "data") as [data|e]; simpl; [|discriminate].
  destruct (Py.iter data) as [items|e]; simpl; [|discriminate].
  intros Hl Hin. exact (filter_raising_kept over_100 items l Hl x Hin).
Qed.

Lemma over_100_count (x : json) (n : Z) :
  Py.getitem x "viewer_count" = Ok (JInt n) ->
  over_100 x = Ok (100 <? n).
Proof. unfold over_100. intros ->. reflexivity. Qed.

(** C1 (amended).  Whatever the platform answers, no stream with at most
    100 viewers is in the list returned by [get_top_streams] (100 itself
    is excluded); and when every record of the answer carries an integer
    viewer count, the call returns a list in which a stream of the answer
    appears exactly when it has more than 100 viewers (101 is included). *)
Theorem top_streams_threshold (self : TwitchApi) (s : state) :
  (forall l x n,
      fst (get_top_streams respond self s) = Ok l ->
      Py.getitem x "viewer_count" = Ok (JInt n) ->
      n <= 100 -> ~ In x l)
  /\ (forall r data,
      respond (st_log s) (streams_request self) = Ok r ->
      Py.getitem r "data" = Ok (JList data) ->
      counted data ->
      exists l,
        fst (get_top_streams respond self s) = Ok l /\
        forall x n,
          In x data ->
          Py.getitem x "viewer_count" = Ok (JInt n) ->
          (In x l <-> 100 < n)).
Proof.
  rewrite get_top_streams_run. simpl. split.
  - intros l x n Hl Hvc Hn Hin.
    assert (Hkept : over_100 x = Ok true).
    { destruct (respond (st_log s) (streams_request self)) as [r|e]; simpl in Hl.
      - destruct (streams_over_100 r) as [l'|e] eqn:Hsel.
        + injection Hl as ->. eapply streams_over_100_kept; eassumption.
        + destruct (top_streams_handled e); [|discriminate].
          injection Hl as <-. destruct Hin.
      - destruct (top_streams_handled e); [|discriminate].
        injection Hl as <-. destruct Hin. }
    rewrite (over_100_count x n Hvc) in Hkept. injection Hkept as Hkept.
    apply Z.ltb_lt in Hkept. lia.
  - intros r data Hr Hdata Hcounted. rewrite Hr. simpl.
    unfold streams_over_100. rewrite Hdata. simpl.
    destruct (filter_raising_total over_100 data) as [l [Hl Hin]].
    + intros x Hx. destruct (Hcounted x Hx) as [n Hn].
      rewrite (over_100_count x n Hn). eauto.
    + rewrite Hl. exists l. split; [reflexivity|].
      intros x n Hx Hvc. split.
      * intros Hxl. pose proof (filter_raising_kept over_100 data l Hl x Hxl) as Hk.
        rewrite (over_100_count x n Hvc) in Hk. injection Hk as Hk.
        apply Z.ltb_lt. exact Hk.
      * intros Hn. apply Hin; [exact Hx|].
        rewrite (over_100_count x n Hvc). f_equal. apply Z.ltb_lt. exact Hn.
Qed.

(** C6 (amended).  When the transport raises a TLS or connection error,
    or the decoded body is an object without a "data" field,
    [get_top_streams] returns the empty list instead of raising. *)
Theorem top_streams_empty_on_failure (self : TwitchApi) (s : state) :
  listing_failure (respond (st_log s) (streams_request self)) ->
  get_top_streams respond self s = (Ok [], logged (streams_request self) s).
Proof.
  intros H. rewrite get_top_streams_run. f_equal.
  inversion H as [e He Heq | d Hd Heq]; simpl.
  - unfold top_streams_handled. rewrite He. reflexivity.
  - unfold streams_over_100. simpl. rewrite Hd. reflexivity.
Qed.

(** C10.  On the success path the list returned by [get_top_streams] is a
    subsequence of the "data" array of the answer: the surviving records
    are the records of the answer, unchanged and in their order. *)
Theorem top_streams_subsequence (self : TwitchApi) (s : state) (r : json)
    (data l : list json) :
  respond (st_log s) (streams_request self) = Ok r ->
  Py.getitem r "data" = Ok (JList data) ->
  fst (get_top_streams respond self s) = Ok l ->
  sublist l data.
Proof.
  intros Hr Hdata. rewrite get_top_streams_run, Hr. simpl.
  destruct (streams_over_100 r) as [l'|e] eqn:Hl; intros H.
  - injection H as ->. eapply streams_over_100_sublist; eassumption.
  - destruct (top_streams_handled e); [|discriminate].
    injection H as <-. apply sublist_nil_l.
Qed.

End TopStreams.

Lemma top_streams_threshold_witness :
  exists l,
    fst (get_top_streams (always (Ok boundary_response)) self0 s0) = Ok l
    /\ ~ In (sample_stream "1" "Ann" 100) l
    /\ In (sample_stream "2" "Bob" 101) l.
Proof.
  destruct (proj2 (top_streams_threshold (always (Ok boundary_response)) self0 s0)
              boundary_response
              [sample_stream "1" "Ann" 100; sample_stream "2" "Bob" 101]
              eq_refl eq_refl) as [l [Hl Hiff]].
  - intros x [<- | [<- | []]]; eexists; reflexivity.
  - exists l. split; [exact Hl|]. split.
    + intros Hin.
      apply (Hiff (sample_stream "1" "Ann" 100) 100) in Hin;
        [lia | simpl; auto | reflexivity].
    + apply (Hiff (sample_stream "2" "Bob" 101) 101); [simpl; auto | reflexivity | lia].
Defined.

Example top_streams_boundary :
  fst (get_top_streams (always (Ok boundary_response)) self0 s0)
  = Ok [sample_stream "2" "Bob" 101].
Proof. reflexivity. Qed.

Example top_streams_ragged :
  fst (get_top_streams (always (Ok ragged_response)) self0 s0) = Ok [].
Proof. reflexivity. Qed.

(** A body that is not an object is not handled: the subscript raises
    [TypeError], which is outside the [except] clause. *)
Example top_streams_array_body :
  fst (get_top_streams (always (Ok (JList []))) self0 s0) = Err TypeError.
Proof. reflexivity. Qed.

(** C1 as stated fails: the answer [ragged_response] holds a stream with
    101 viewers, and [get_top_streams] returns the empty list, because the
    other record has no viewer count and the [KeyError] handler takes
    over. *)
Lemma top_streams_threshold_counterexample : ~ threshold_on_every_response.
Proof.
  intros H.
  destruct (H (always (Ok ragged_response)) self0 s0 ragged_response
              [sample_stream "2" "Bob" 101; bare_stream]
              (sample_stream "2" "Bob" 101) 101
              eq_refl eq_refl (or_introl eq_refl) eq_refl) as [_ Hin].
  destruct Hin as [l [Hl Hin]]; [lia|].
  vm_compute in Hl. injection Hl as <-. destruct Hin.
Qed.

Lemma top_streams_empty_on_failure_witness :
  get_top_streams (always (Err SSLError)) self0 s0
    = (Ok [], logged (streams_request self0) s0)
  /\ get_top_streams (always (Err ConnectTimeout)) self0 s0
    = (Ok [], logged (streams_request self0) s0)
  /\ get_top_streams (always (Ok (JDict [("error", JStr "Unauthorized")]))) self0 s0
    = (Ok [], logged (streams_request self0) s0).
Proof.
  split; [|split].
  - apply (top_streams_empty_on_failure (always (Err SSLError)) self0 s0).
    apply tls_or_connection_error. reflexivity.
  - apply (top_streams_empty_on_failure (always (Err ConnectTimeout)) self0 s0).
    apply tls_or_connection_error. reflexivity.
  - apply (top_streams_empty_on_failure
             (always (Ok (JDict [("error", JStr "Unauthorized")]))) self0 s0).
    apply no_data_field. reflexivity.
Defined.

(** C6 as stated fails: the body [[]] has no "data" field, its subscript
    raises [TypeError], and [get_top_streams] lets it through. *)
Lemma top_streams_empty_counterexample : ~ empty_whenever_data_missing.
Proof.
  intros H.
  destruct (H (always (Ok (JList []))) self0 s0) as [_ Hbody].
  specialize (Hbody (JList []) eq_refl eq_refl).
  vm_compute in Hbody. discriminate Hbody.
Qed.

Lemma top_streams_subsequence_witness :
  sublist [sample_stream "2" "Bob" 101]
          [sample_stream "1" "Ann" 100; sample_stream "2" "Bob" 101].
Proof.
  apply (top_streams_subsequence (always (Ok boundary_response)) self0 s0
           boundary_response); reflexivity.
Defined.

Section Counts.

Variable respond : list request -> request -> result json.

Lemma get_follower_count_run (self : TwitchApi) (user_id : json) (s : state) :
  get_follower_count respond self user_id s =
  (match rbind (respond (st_log s) (follows_request self user_id))
               (fun r => Py.getitem r "total") with
   | Ok v => Ok v
   | Err _ => Ok (JInt 10000000)
   end,
   logged (follows_request self user_id) s).
Proof.
  unfold get_follower_count, try_except, bind, send, lift, ret, logged.
  destruct (respond (st_log s) (follows_request self user_id)) as [r|e]; simpl;
    [destruct (Py.getitem r "total")|]; reflexivity.
Qed.

Lemma get_video_count_run (self : TwitchApi) (user_id : json) (s : state) :
  get_video_count respond self user_id s =
  (match rbind (respond (st_log s) (videos_request self user_id)) data_length with
   | Ok v => Ok v
   | Err _ => Ok (JInt 10000)
   end,
   logged (videos_request self user_id) s).
Proof.
  unfold get_video_count, try_except, bind, send, lift, ret, logged.
  destruct (respond (st_log s) (videos_request self user_id)) as [r|e]; simpl;
    [destruct (data_length r)|]; reflexivity.
Qed.

(** C4.  When the lookup fails with any exception, in the transport or in
    reading the answer, [get_follower_count] returns 10000000 and
    [get_video_count] returns 10000; and neither ever raises. *)
Theorem count_lookups_sentinel (self : TwitchApi) (user_id : json) (s : state) :
  (forall e,
      rbind (respond (st_log s) (follows_request self user_id))
            (fun r => Py.getitem r "total") = Err e ->
      fst (get_follower_count respond self user_id s) = Ok (JInt 10000000))
  /\ (forall e,
      rbind (respond (st_log s) (videos_request self user_id)) data_length = Err e ->
      fst (get_video_count respond self user_id s) = Ok (JInt 10000))
  /\ (exists v, fst (get_follower_count respond self user_id s) = Ok v)
  /\ (exists v, fst (get_video_count respond self user_id s) = Ok v).
Proof.
  rewrite get_follower_count_run, get_video_count_run. simpl.
  split; [|split; [|split]].
  - intros e ->. reflexivity.
  - intros e ->. reflexivity.
  - destruct (rbind _ _); eauto.
  - destruct (rbind _ data_length); eauto.
Qed.

End Counts.

Lemma count_lookups_sentinel_witness :
  fst (get_follower_count (always (Err ReadTimeout)) self0 (JStr "7") s0)
    = Ok (JInt 10000000)
  /\ fst (get_video_count (always (Ok (JList []))) self0 (JStr "7") s0)
    = Ok (JInt 10000).
Proof.
  split.
  - apply (proj1 (count_lookups_sentinel (always (Err ReadTimeout)) self0 (JStr "7") s0)
             ReadTimeout).
    reflexivity.
  - apply (proj1 (proj2 (count_lookups_sentinel (always (Ok (JList []))) self0
                           (JStr "7") s0)) TypeError).
    reflexivity.
Defined.

Section Token.

Variable getenv : string -> option string.
Variable respond : list request -> request -> result json.

Lemma request_new_token_run (s : state) :
  request_new_token getenv respond s =
  let s' := logged (token_request getenv) s in
  match respond (st_log s) (token_request getenv) with
  | Err e => (Err e, s')
  | Ok r =>
      match Py.contains "access_token" r with
      | Err e => (Err e, s')
      | Ok false => (Err (SystemExit "Unable to generate access token"), s')
      | Ok true =>
          match Py.getitem r "access_token" with
          | Err e => (Err e, s')
          | Ok (JStr t) =>
              (Ok t, {| st_log := st_log s';
                        st_dotenv := Py.dict_set "ACCESS_TOKEN" t (st_dotenv s') |})
          | Ok _ => (Err AttributeError, s')
          end
      end
  end.
Proof.
  unfold request_new_token, bind, send, lift, ret, raise, set_key, logged. simpl.
  destruct (respond (st_log s) (token_request getenv)) as [r|e]; [|reflexivity].
  destruct (Py.contains "access_token" r) as [[|]|e]; try reflexivity.
  destruct (Py.getitem r "access_token") as [[]|e]; reflexivity.
Qed.

Lemma get_token_refresh (s : state) :
  refresh_needed getenv respond s ->
  get_token getenv respond s =
  request_new_token getenv respond
    {| st_log := log_before_refresh getenv s; st_dotenv := st_dotenv s |}.
Proof.
  unfold refresh_needed, get_token, log_before_refresh.
  destruct s as [log file]. cbn [st_log st_dotenv].
  destruct (getenv "ACCESS_TOKEN") as [saved|]; [|reflexivity].
  destruct (Py.truthy (JStr saved)); [|reflexivity].
  unfold bind, send, lift. cbn [st_log st_dotenv].
  destruct (respond log (validate_request saved)) as [r|e]; [|intros []].
  intros ->. reflexivity.
Qed.

Lemma refresh_calls_app (l1 l2 : list request) :
  refresh_calls (l1 ++ l2) = (refresh_calls l1 + refresh_calls l2)%nat.
Proof.
  unfold refresh_calls. rewrite List.filter_app, length_app. reflexivity.
Qed.

Lemma request_new_token_log (s : state) :
  st_log (snd (request_new_token getenv respond s))
  = st_log s ++ [token_request getenv].
Proof.
  rewrite request_new_token_run. cbv zeta.
  destruct (respond (st_log s) (token_request getenv)) as [r|e]; [|reflexivity].
  destruct (Py.contains "access_token" r) as [[|]|e]; try reflexivity.
  destruct (Py.getitem r "access_token") as [[]|e]; reflexivity.
Qed.

(** C7.  With a stored token whose validation answer holds "client_id",
    [get_token] returns the stored token and the validation call is the
    only request made: no token request is issued and the store is left
    alone.  When the answer lacks "client_id", exactly one token request
    follows the validation call, and the token it yields is written to the
    store under ACCESS_TOKEN and returned. *)
Theorem token_validated_or_refreshed (saved : string) (s : state) (rv : json) :
  getenv "ACCESS_TOKEN" = Some saved ->
  saved <> EmptyString ->
  respond (st_log s) (validate_request saved) = Ok rv ->
  (Py.contains "client_id" rv = Ok true ->
     get_token getenv respond s = (Ok saved, logged (validate_request saved) s)
     /\ refresh_calls (st_log (snd (get_token getenv respond s)))
        = refresh_calls (st_log s))
  /\ (Py.contains "client_id" rv = Ok false ->
     st_log (snd (get_token getenv respond s))
       = st_log s ++ [validate_request saved; token_request getenv]
     /\ refresh_calls (st_log (snd (get_token getenv respond s)))
        = S (refresh_calls (st_log s))
     /\ forall d t,
         respond (st_log s ++ [validate_request saved]) (token_request getenv)
           = Ok (JDict d) ->
         Py.dict_get "access_token" d = Some (JStr t) ->
         get_token getenv respond s
         = (Ok t,
            {| st_log := st_log s ++ [validate_request saved; token_request getenv];
               st_dotenv := Py.dict_set "ACCESS_TOKEN" t (st_dotenv s) |})).
Proof.
  intros Henv Hsaved Hrv.
  assert (Htruthy : Py.truthy (JStr saved) = true).
  { simpl. destruct (String.eqb_spec saved EmptyString); [contradiction | reflexivity]. }
  split.
  - intros Hvalid.
    assert (Hrun : get_token getenv respond s
                   = (Ok saved, logged (validate_request saved) s)).
    { unfold get_token. rewrite Henv, Htruthy.
      unfold bind, send, lift, ret, logged. rewrite Hrv, Hvalid. reflexivity. }
    split; [exact Hrun|].
    rewrite Hrun. simpl. rewrite refresh_calls_app.
    change (refresh_calls [validate_request saved]) with 0%nat. lia.
  - intros Hstale.
    assert (Hneed : refresh_needed getenv respond s).
    { unfold refresh_needed. rewrite Henv, Htruthy, Hrv. exact Hstale. }
    assert (Hlog : log_before_refresh getenv s = st_log s ++ [validate_request saved]).
    { unfold log_before_refresh. rewrite Henv, Htruthy. reflexivity. }
    rewrite (get_token_refresh s Hneed), Hlog.
    split; [|split].
    + rewrite request_new_token_log. simpl. rewrite <- app_assoc. reflexivity.
    + rewrite request_new_token_log. simpl.
      rewrite !refresh_calls_app.
      change (refresh_calls [validate_request saved]) with 0%nat.
      change (refresh_calls [token_request getenv]) with 1%nat. lia.
    + intros d t Hr Ht. rewrite request_new_token_run. simpl.
      rewrite Hr. simpl. unfold Py.dict_has. rewrite Ht.
      rewrite <- app_assoc. reflexivity.
Qed.

(** C8.  When the token request is reached and its answer holds no
    "access_token", construction of the client stops with
    [SystemExit("Unable to generate access token")]: no client object is
    returned, the token request was made once, and the store is untouched.
    More generally, unless the answer is an object with a string under
    "access_token", construction ends in an exception after that one
    request, with the store untouched. *)
Theorem refresh_without_token_fatal (s : state) :
  refresh_needed getenv respond s ->
  (forall r,
      respond (log_before_refresh getenv s) (token_request getenv) = Ok r ->
      Py.contains "access_token" r = Ok false ->
      __init__ getenv respond s
      = (Err (SystemExit "Unable to generate access token"),
         {| st_log := log_before_refresh getenv s ++ [token_request getenv];
            st_dotenv := st_dotenv s |}))
  /\ ((forall d t,
         respond (log_before_refresh getenv s) (token_request getenv) = Ok (JDict d) ->
         Py.dict_get "access_token" d <> Some (JStr t)) ->
      exists e,
        __init__ getenv respond s
        = (Err e,
           {| st_log := log_before_refresh getenv s ++ [token_request getenv];
              st_dotenv := st_dotenv s |})).
Proof.
  intros Hneed.
  unfold __init__, bind. rewrite (get_token_refresh s Hneed).
  rewrite request_new_token_run. cbv zeta. unfold logged. cbn [st_log st_dotenv].
  split.
  - intros r Hr Hnone. rewrite Hr, Hnone. reflexivity.
  - intros Hno.
    destruct (respond (log_before_refresh getenv s) (token_request getenv))
      as [r|e]; [|eauto].
    destruct (Py.contains "access_token" r) as [[|]|e]; [|eauto|eauto].
    destruct (Py.getitem r "access_token") as [tok|e] eqn:Htok; [|eauto].
    destruct tok as [| | |t| |]; eauto.
    exfalso. destruct r as [| | | | |d]; try discriminate Htok.
    simpl in Htok. destruct (Py.dict_get "access_token" d) as [v|] eqn:Hd;
      [|discriminate].
    injection Htok as ->. exact (Hno d t eq_refl Hd).
Qed.

End Token.

Lemma token_validated_or_refreshed_witness :
  get_token env_with_token accepting s0
    = (Ok "old", logged (validate_request "old") s0)
  /\ get_token env_with_token renewing s0
    = (Ok "new",
       {| st_log := [validate_request "old"; token_request env_with_token];
          st_dotenv := [("ACCESS_TOKEN", "new")] |}).
Proof.
  split.
  - apply (proj1 (token_validated_or_refreshed env_with_token accepting "old" s0
                    (JDict [("client_id", JStr "app"); ("expires_in", JInt 5000)])
                    eq_refl ltac:(discriminate) eq_refl)).
    reflexivity.
  - apply (proj2 (proj2 (proj2 (token_validated_or_refreshed env_with_token renewing
                    "old" s0
                    (JDict [("status", JInt 401);
                            ("message", JStr "invalid access token")])
                    eq_refl ltac:(discriminate) eq_refl) eq_refl))
             [("access_token", JStr "new"); ("expires_in", JInt 5000)] "new");
      reflexivity.
Defined.

Lemma refresh_without_token_fatal_witness :
  __init__ env_with_token refusing s0
  = (Err (SystemExit "Unable to generate access token"),
     {| st_log := [validate_request "old"; token_request env_with_token];
        st_dotenv := [] |}).
Proof.
  apply (proj1 (refresh_without_token_fatal env_with_token refusing s0 eq_refl)
           (JDict [("status", JInt 403); ("message", JStr "invalid client secret")]));
    reflexivity.
Defined.

Section HashKeys.

Lemma hkey_eqb_eq (a b : hkey) : hkey_eqb a b = true <-> a = b.
Proof.
  destruct a, b; simpl; split; intros H; try discriminate; try reflexivity.
  - apply Z.eqb_eq in H. congruence.
  - injection H as ->. apply Z.eqb_refl.
  - apply String.eqb_eq in H. congruence.
  - injection H as ->. apply String.eqb_refl.
Qed.

Lemma seen_key (k : hkey) (seen : list hkey) :
  existsb (hkey_eqb k) seen = true <-> In k seen.
Proof.
  rewrite existsb_exists. split.
  - intros [k' [Hin Heq]]. apply hkey_eqb_eq in Heq. congruence.
  - intros Hin. exists k. split; [exact Hin | apply hkey_eqb_eq; reflexivity].
Qed.

(** What [set(l)] holds: elements of [l] with fresh, pairwise different
    keys, one for every key of [l]. *)
Lemma set_from_spec (l : list json) :
  forall (seen : list hkey) (l' : list json),
    set_from seen l = Ok l' ->
    List.NoDup l'
    /\ (forall x, In x l' ->
                  In x l /\ exists k, hash_key x = Ok k /\ ~ In k seen)
    /\ (forall x k, In x l -> hash_key x = Ok k -> ~ In k seen ->
                    exists y, In y l' /\ hash_key y = Ok k).
Proof.
  induction l as [|x l IH]; simpl; intros seen l' H.
  - injection H as <-. split; [constructor|]. split; [intros ? [] | intros ? ? []].
  - destruct (hash_key x) as [k|e] eqn:Hk; simpl in H; [|discriminate].
    destruct (set_from (k :: seen) l) as [rest|e] eqn:Hrest; simpl in H; [|discriminate].
    injection H as <-.
    destruct (IH (k :: seen) rest Hrest) as [Hnd [Hsub Hcov]].
    destruct (existsb (hkey_eqb k) seen) eqn:Hseen.
    + apply seen_key in Hseen. split; [exact Hnd|]. split.
      * intros y Hy. destruct (Hsub y Hy) as [Hin [k' [Hk' Hfresh]]].
        split; [right; exact Hin|]. exists k'. split; [exact Hk'|].
        intros Hc. apply Hfresh. right. exact Hc.
      * intros y k' [<-|Hy] Hk' Hfresh.
        -- rewrite Hk in Hk'. injection Hk' as <-. contradiction.
        -- apply (Hcov y k' Hy Hk'). intros [<-|Hc]; contradiction.
    + assert (Hnew : ~ In k seen).
      { intros Hc. apply seen_key in Hc. congruence. }
      split; [|split].
      * constructor; [|exact Hnd].
        intros Hin. destruct (Hsub x Hin) as [_ [k' [Hk' Hfresh]]].
        rewrite Hk in Hk'. injection Hk' as <-. apply Hfresh. left. reflexivity.
      * intros y [<-|Hy].
        -- split; [left; reflexivity|]. exists k. split; assumption.
        -- destruct (Hsub y Hy) as [Hin [k' [Hk' Hfresh]]].
           split; [right; exact Hin|]. exists k'. split; [exact Hk'|].
           intros Hc. apply Hfresh. right. exact Hc.
      * intros y k' [<-|Hy] Hk' Hfresh.
        -- exists x. split; [left; reflexivity | exact Hk'].
        -- destruct (hkey_eqb k k') eqn:Heq.
           ++ apply hkey_eqb_eq in Heq. subst k'.
              exists x. split; [left; reflexivity | exact Hk].
           ++ destruct (Hcov y k' Hy Hk') as [z [Hz Hkz]].
              ** intros [->|Hc]; [|contradiction].
                 rewrite (proj2 (hkey_eqb_eq k' k') eq_refl) in Heq. discriminate.
              ** exists z. split; [right; exact Hz | exact Hkz].
Qed.

Lemma hash_key_str (y : json) (s : string) : hash_key y = Ok (HStr s) -> y = JStr s.
Proof. destruct y; simpl; intros H; try discriminate; try destruct b; congruence. Qed.

End HashKeys.

Section PanelLinks.

Variable respond : list request -> request -> result json.
Variable findall : string -> list string.
Variable set_order : list json -> list json.
Hypothesis set_order_perm : forall l, Permutation (set_order l) l.

Lemma get_panel_links_run (user_id : json) (s : state) :
  get_panel_links respond findall set_order user_id s =
  (match respond (st_log s) (panels_request user_id) with
   | Err _ => Ok []
   | Ok r =>
       panels <-? panels_of r ;;
       items <-? Py.iter panels ;;
       links <-? collect_links findall items [] ;;
       list_set set_order links
   end,
   logged (panels_request user_id) s).
Proof.
  unfold get_panel_links, try_except, bind, send, lift, ret, logged.
  destruct (respond (st_log s) (panels_request user_id)); reflexivity.
Qed.

(** C5 (amended).  When the POST, or the decoding of its body as JSON,
    raises any exception, [get_panel_links] returns the empty list and
    raises nothing. *)
Theorem panel_links_empty_on_transport_failure (user_id : json) (s : state)
    (e : exn) :
  respond (st_log s) (panels_request user_id) = Err e ->
  get_panel_links respond findall set_order user_id s
  = (Ok [], logged (panels_request user_id) s).
Proof.
  intros H. rewrite get_panel_links_run, H. reflexivity.
Qed.

Lemma list_set_spec (links l : list json) :
  list_set set_order links = Ok l ->
  List.NoDup l
  /\ (forall x, In x l -> In x links)
  /\ (forall x k, In x links -> hash_key x = Ok k ->
                  exists y, In y l /\ hash_key y = Ok k).
Proof.
  unfold list_set. destruct (set_from [] links) as [elems|e] eqn:Hset; simpl;
    [|discriminate].
  intros H. injection H as <-.
  destruct (set_from_spec links [] elems Hset) as [Hnd [Hsub Hcov]].
  pose proof (set_order_perm elems) as Hperm.
  split; [|split].
  - eapply Permutation_NoDup; [apply Permutation_sym; exact Hperm | exact Hnd].
  - intros x Hx. apply Hsub. eapply Permutation_in; eassumption.
  - intros x k Hx Hk. destruct (Hcov x k Hx Hk) as [y [Hy Hky]]; [intros []|].
    exists y. split; [|exact Hky].
    eapply Permutation_in; [apply Permutation_sym; exact Hperm | exact Hy].
Qed.

Lemma sample_panel_links (links : list json) (url description a b : string) :
  url <> EmptyString ->
  description <> EmptyString ->
  findall description = [a; b] ->
  panel_links findall links (sample_panel url description)
  = Ok (links ++ [JStr url; JStr a; JStr b]).
Proof.
  intros Hurl Hdesc Hfind. unfold panel_links.
  change (Py.getitem (sample_panel url description) "linkURL") with (Ok (JStr url)).
  change (Py.getitem (sample_panel url description) "description")
    with (Ok (JStr description)).
  unfold rbind, Py.truthy, re_findall.
  destruct (String.eqb_spec url EmptyString); [contradiction|].
  destruct (String.eqb_spec description EmptyString); [contradiction|].
  simpl. rewrite Hfind. simpl. rewrite <- app_assoc. reflexivity.
Qed.

(** C9.  Every list returned by [get_panel_links] is free of duplicates.
    For a channel with one panel that has a link and a description in
    which the pattern finds two URLs, the returned list holds exactly the
    link and the two URLs, in whatever order the set gives them. *)
Theorem panel_links_deduplicated (user_id : json) (s : state) :
  (forall l,
      fst (get_panel_links respond findall set_order user_id s) = Ok l ->
      List.NoDup l)
  /\ (forall url description a b,
      url <> EmptyString ->
      description <> EmptyString ->
      findall description = [a; b] ->
      respond (st_log s) (panels_request user_id)
        = Ok (one_panel_response url description) ->
      exists l,
        fst (get_panel_links respond findall set_order user_id s) = Ok l
        /\ List.NoDup l
        /\ forall x, In x l <-> x = JStr url \/ x = JStr a \/ x = JStr b).
Proof.
  rewrite get_panel_links_run. simpl. split.
  - intros l.
    destruct (respond (st_log s) (panels_request user_id)) as [r|e];
      [|intros H; injection H as <-; constructor].
    destruct (panels_of r) as [panels|e]; simpl; [|discriminate].
    destruct (Py.iter panels) as [items|e]; simpl; [|discriminate].
    destruct (collect_links findall items []) as [links|e]; simpl; [|discriminate].
    intros H. apply (list_set_spec links l H).
  - intros url description a b Hurl Hdesc Hfind ->.
    change (panels_of (one_panel_response url description))
      with (Ok (JList [sample_panel url description])).
    unfold rbind at 1 2. unfold Py.iter, collect_links.
    rewrite (sample_panel_links [] url description a b Hurl Hdesc Hfind).
    cbn [rbind app].
    destruct (list_set set_order [JStr url; JStr a; JStr b]) as [l|e] eqn:Hl.
    + destruct (list_set_spec _ l Hl) as [Hnd [Hsub Hcov]].
      exists l. split; [reflexivity|]. split; [exact Hnd|].
      intros x. split.
      * intros Hx. destruct (Hsub x Hx) as [<- | [<- | [<- | []]]]; auto.
      * assert (Hin : forall t, In (JStr t) [JStr url; JStr a; JStr b] -> In (JStr t) l).
        { intros t Ht. destruct (Hcov (JStr t) (HStr t) Ht eq_refl) as [y [Hy Hky]].
          apply hash_key_str in Hky. subst y. exact Hy. }
        intros [-> | [-> | ->]]; apply Hin; simpl; auto.
    + unfold list_set in Hl. simpl in Hl. discriminate.
Qed.

End PanelLinks.

Lemma panel_links_empty_on_transport_failure_witness :
  get_panel_links (always (Err JSONDecodeError)) sample_findall id (JStr "7") s0
  = (Ok [], logged (panels_request (JStr "7")) s0).
Proof.
  apply (panel_links_empty_on_transport_failure (always (Err JSONDecodeError))
           sample_findall id (JStr "7") s0 JSONDecodeError).
  reflexivity.
Defined.

Example panel_links_no_user :
  fst (get_panel_links (always (Ok no_user_response)) sample_findall id (JStr "7") s0)
  = Err TypeError.
Proof. reflexivity. Qed.

(** C5 as stated fails: for a channel that does not exist the body is
    decoded well, ["user"] is [null], and the subscript [["panels"]] raises
    [TypeError] after the [try] has ended. *)
Lemma panel_links_bad_shape_counterexample : ~ panel_links_absorb_bad_shape.
Proof.
  intros H.
  specialize (H (always (Ok no_user_response)) sample_findall id (JStr "7") s0
                no_user_response TypeError eq_refl eq_refl).
  vm_compute in H. discriminate H.
Qed.

Lemma panel_links_deduplicated_witness :
  exists l,
    fst (get_panel_links
           (always (Ok (one_panel_response "https://shop.tv"
                          "see https://a.com and www.b.org")))
           sample_findall id (JStr "7") s0) = Ok l
    /\ List.NoDup l
    /\ forall x, In x l <->
                 x = JStr "https://shop.tv"
                 \/ x = JStr "https://a.com" \/ x = JStr "www.b.org".
Proof.
  apply (proj2 (panel_links_deduplicated
                  (always (Ok (one_panel_response "https://shop.tv"
                                 "see https://a.com and www.b.org")))
                  sample_findall id
                  (fun l => Permutation_refl l) (JStr "7") s0)
           "https://shop.tv" "see https://a.com and www.b.org"
           "https://a.com" "www.b.org").
  - discriminate.
  - discriminate.
  - reflexivity.
  - reflexivity.
Defined.

Section Dicts.

Context {V : Type}.

Lemma dict_get_set (k k' : string) (v : V) (d : list (string * V)) :
  Py.dict_get k (Py.dict_set k' v d)
  = if String.eqb k k' then Some v else Py.dict_get k d.
Proof.
  induction d as [|[k1 v1] d IH]; simpl.
  - destruct (String.eqb k k'); reflexivity.
  - destruct (String.eqb_spec k' k1) as [->|Hne]; simpl.
    + destruct (String.eqb k k1); reflexivity.
    + rewrite IH.
      destruct (String.eqb_spec k k1) as [->|Hne1]; [|reflexivity].
      destruct (String.eqb_spec k1 k'); [congruence | reflexivity].
Qed.

Lemma dict_has_set (k k' : string) (v : V) (d : list (string * V)) :
  Py.dict_has k (Py.dict_set k' v d)
  = if String.eqb k k' then true else Py.dict_has k d.
Proof.
  unfold Py.dict_has. rewrite dict_get_set. destruct (String.eqb k k'); reflexivity.
Qed.

End Dicts.

Lemma info_set_lookup (k0 field : string) (v : json)
    (stream_info : list (string * dict)) (k : string) :
  Py.dict_get k (info_set k0 field v stream_info)
  = if String.eqb k k0
    then option_map (Py.dict_set field v) (Py.dict_get k0 stream_info)
    else Py.dict_get k stream_info.
Proof.
  unfold info_set.
  destruct (Py.dict_get k0 stream_info) as [info|] eqn:Hget.
  - rewrite dict_get_set. destruct (String.eqb k k0); reflexivity.
  - destruct (String.eqb_spec k k0) as [->|]; [rewrite Hget|]; reflexivity.
Qed.

Section Details.

Variable respond : list request -> request -> result json.

Lemma entry_of_ok (stream_info : list (string * dict)) (login : json) (k : string) :
  entry_of stream_info login = Ok k ->
  login = JStr k /\ exists info, Py.dict_get k stream_info = Some info.
Proof.
  destruct login; simpl; try discriminate.
  unfold Py.dict_has. destruct (Py.dict_get s stream_info) as [info|] eqn:Hget;
    [|discriminate].
  intros H. injection H as <-. eauto.
Qed.

Lemma info_set_same (k0 field : string) (v : json)
    (stream_info : list (string * dict)) (info : dict) :
  Py.dict_get k0 stream_info = Some info ->
  Py.dict_get k0 (info_set k0 field v stream_info)
  = Some (Py.dict_set field v info).
Proof.
  intros H. rewrite info_set_lookup, String.eqb_refl, H. reflexivity.
Qed.

Lemma info_set_other (k0 field : string) (v : json)
    (stream_info : list (string * dict)) (k : string) :
  k <> k0 ->
  Py.dict_get k (info_set k0 field v stream_info) = Py.dict_get k stream_info.
Proof.
  intros H. rewrite info_set_lookup.
  destruct (String.eqb_spec k k0); [contradiction | reflexivity].
Qed.

Lemma info_get_entry (k0 field : string) (stream_info : list (string * dict))
    (info : dict) :
  Py.dict_get k0 stream_info = Some info ->
  info_get k0 field stream_info
  = match Py.dict_get field info with
    | Some v => Ok v
    | None => Err KeyError
    end.
Proof. intros H. unfold info_get. rewrite H. reflexivity. Qed.

Lemma eq_str_empty (t : json) : Py.eq_str t EmptyString = true -> t = JStr EmptyString.
Proof.
  destruct t; simpl; try discriminate.
  intros H. apply String.eqb_eq in H. congruence.
Qed.

Lemma get_follower_count_returns (self : TwitchApi) (user_id : json) (s : state) :
  exists v, get_follower_count respond self user_id s
            = (Ok v, logged (follows_request self user_id) s).
Proof.
  rewrite get_follower_count_run. destruct (rbind _ _); eauto.
Qed.

Lemma get_video_count_returns (self : TwitchApi) (user_id : json) (s : state) :
  exists v, get_video_count respond self user_id s
            = (Ok v, logged (videos_request self user_id) s).
Proof.
  rewrite get_video_count_run. destruct (rbind _ data_length); eauto.
Qed.

(** What one pass of the loop body does to the mapping and to the log. *)
Lemma enrich_one_spec (self : TwitchApi) (stream_info stream_info' : list (string * dict))
    (record : json) (s s' : state) :
  enrich_one respond self stream_info record s = (Ok stream_info', s') ->
  exists k0 info0 t views info',
    Py.getitem record "login" = Ok (JStr k0)
    /\ Py.getitem record "broadcaster_type" = Ok t
    /\ Py.dict_get k0 stream_info = Some info0
    /\ Py.dict_get k0 stream_info' = Some info'
    /\ (forall k, k <> k0 -> Py.dict_get k stream_info' = Py.dict_get k stream_info)
    /\ ((Py.eq_str t EmptyString = false
         /\ info' = Py.dict_set "channel_views" views
                      (Py.dict_set "broadcaster_type" t info0)
         /\ s' = s)
        \/ (t = JStr EmptyString
            /\ exists user_id followers videos,
                Py.dict_get "user_id" info0 = Some user_id
                /\ info' = Py.dict_set "videos" videos
                             (Py.dict_set "followers" followers
                                (Py.dict_set "channel_views" views
                                   (Py.dict_set "broadcaster_type" t info0)))
                /\ st_log s' = st_log s ++ [follows_request self user_id;
                                            videos_request self user_id]
                /\ st_dotenv s' = st_dotenv s)).
Proof.
  unfold enrich_one, bind, lift, ret.
  destruct (Py.getitem record "login") as [login|e] eqn:Hlogin; [|discriminate].
  destruct (entry_of stream_info login) as [k0|e] eqn:Hentry; [|discriminate].
  apply entry_of_ok in Hentry. destruct Hentry as [-> [info0 Hinfo0]].
  destruct (Py.getitem record "broadcaster_type") as [t|e] eqn:Ht; [|discriminate].
  destruct (Py.getitem record "view_count") as [views|e] eqn:Hviews; [|discriminate].
  pose proof (info_set_same k0 "broadcaster_type" t _ _ Hinfo0) as H1.
  pose proof (info_set_same k0 "channel_views" views _ _ H1) as H2.
  rewrite (info_get_entry _ "broadcaster_type" _ _ H2).
  rewrite (info_get_entry _ "user_id" _ _ H2).
  rewrite !dict_get_set. cbn [String.eqb Ascii.eqb Bool.eqb].
  destruct (Py.eq_str t EmptyString) eqn:Heq.
  - apply eq_str_empty in Heq.
    destruct (Py.dict_get "user_id" info0) as [user_id|] eqn:Huid; [|discriminate].
    destruct (get_follower_count_returns self user_id s) as [followers ->].
    pose proof (info_set_same k0 "followers" followers _ _ H2) as H3.
    rewrite (info_get_entry _ "user_id" _ _ H3).
    rewrite !dict_get_set. cbn [String.eqb Ascii.eqb Bool.eqb]. rewrite Huid.
    destruct (get_video_count_returns self user_id
                (logged (follows_request self user_id) s)) as [videos ->].
    pose proof (info_set_same k0 "videos" videos _ _ H3) as H4.
    intros H. injection H as <- <-.
    exists k0, info0, t, views. eexists.
    split; [reflexivity|]. split; [reflexivity|]. split; [exact Hinfo0|].
    split; [exact H4|]. split.
    + intros k Hk. rewrite !info_set_other by exact Hk. reflexivity.
    + right. split; [exact Heq|]. exists user_id, followers, videos.
      split; [exact Huid|]. split; [reflexivity|].
      split; [|reflexivity]. simpl. rewrite <- app_assoc. reflexivity.
  - intros H. injection H as <- <-.
    exists k0, info0, t, views. eexists.
    split; [reflexivity|]. split; [reflexivity|]. split; [exact Hinfo0|].
    split; [exact H2|]. split.
    + intros k Hk. rewrite !info_set_other by exact Hk. reflexivity.
    + left. split; [exact Heq|]. split; reflexivity.
Qed.

Lemma summary_untouched (x : json) (k : string) (info : dict) :
  summary x = Ok (k, info) -> untouched info.
Proof.
  unfold summary, rbind.
  repeat match goal with
         | |- context [match ?r with Ok _ => _ | Err _ => _ end] =>
             destruct r; [|discriminate]
         end.
  intros H. injection H as <- <-. repeat split.
Qed.

Lemma build_stream_info_untouched (streams : list json) :
  forall acc stream_info,
    build_stream_info streams acc = Ok stream_info ->
    (forall k info, Py.dict_get k acc = Some info -> untouched info) ->
    forall k info, Py.dict_get k stream_info = Some info -> untouched info.
Proof.
  induction streams as [|x streams IH]; simpl; intros acc stream_info H Hacc.
  - injection H as <-. exact Hacc.
  - destruct (summary x) as [[k0 info0]|e] eqn:Hsum; simpl in H; [|discriminate].
    apply (IH _ _ H). intros k info. rewrite dict_get_set.
    destruct (String.eqb k k0); [|apply Hacc].
    intros Hk. injection Hk as <-. eapply summary_untouched. exact Hsum.
Qed.

(** The loop invariant: every entry is consistent, the entries of logins
    not yet met are as the comprehension left them, and no user id has
    changed. *)
Lemma enrich_spec (self : TwitchApi) (stream_info0 : list (string * dict))
    (records : list json) :
  forall (cur : list (string * dict)) (s : state) (m : list (string * dict))
         (s' : state) (met : list (result json)),
    enrich respond self records cur s = (Ok m, s') ->
    List.NoDup (map (fun record => Py.getitem record "login") records) ->
    (forall record, In record records -> ~ In (Py.getitem record "login") met) ->
    (forall k info, Py.dict_get k cur = Some info ->
                    consistent info /\ (~ In (Ok (JStr k)) met -> untouched info)) ->
    (forall k, info_get k "user_id" cur = info_get k "user_id" stream_info0) ->
    (forall k info, Py.dict_get k m = Some info -> consistent info)
    /\ st_log s' = st_log s ++ flat_map (extra_lookups self stream_info0) records.
Proof.
  induction records as [|record rest IH]; simpl; intros cur s m s' met Hrun Hnd Hnew Hinv Hid.
  - unfold ret in Hrun. injection Hrun as <- <-. split.
    + intros k info Hk. apply (Hinv k info Hk).
    + rewrite app_nil_r. reflexivity.
  - unfold bind in Hrun.
    destruct (enrich_one respond self cur record s) as [[cur'|e] s1] eqn:Hone;
      [|discriminate].
    apply enrich_one_spec in Hone.
    destruct Hone as (k0 & info0 & t & views & info' & Hlogin & Ht & Hinfo0 & Hinfo'
                      & Hother & Hcase).
    assert (Hfresh : untouched info0).
    { apply (Hinv k0 info0 Hinfo0). rewrite <- Hlogin. apply Hnew. left. reflexivity. }
    destruct Hfresh as (Htier0 & Hfol0 & Hvid0).
    assert (Hid0 : info_get k0 "user_id" stream_info0
                   = match Py.dict_get "user_id" info0 with
                     | Some v => Ok v
                     | None => Err KeyError
                     end).
    { rewrite <- Hid. apply info_get_entry. exact Hinfo0. }
    assert (Hstep : consistent info'
                    /\ Py.dict_get "user_id" info' = Py.dict_get "user_id" info0
                    /\ st_log s1 = st_log s ++ extra_lookups self stream_info0 record).
    { unfold extra_lookups. rewrite Hlogin, Ht.
      destruct Hcase as [(Hpartner & -> & ->) | (-> & user_id & followers & videos
                                                & Huid & -> & Hlog & _)].
      - rewrite Hpartner. unfold consistent, tier.
        rewrite !dict_has_set, !dict_get_set. cbn [String.eqb Ascii.eqb Bool.eqb].
        rewrite Hfol0, Hvid0, app_nil_r.
        split; [|split; reflexivity].
        split; (split; [discriminate|]); intros H; injection H as ->;
          simpl in Hpartner; discriminate.
      - unfold consistent, tier.
        rewrite !dict_has_set, !dict_get_set. cbn [String.eqb Ascii.eqb Bool.eqb].
        rewrite Hid0, Huid. cbn [Py.eq_str String.eqb].
        split; [|split; [reflexivity | exact Hlog]].
        split; split; reflexivity. }
    destruct Hstep as (Hcons & Huser & Hlog1).
    apply List.NoDup_cons_iff in Hnd. destruct Hnd as [Hnotin Hnd].
    destruct (IH cur' s1 m s' (Py.getitem record "login" :: met) Hrun) as [Hm Hlog].
    + exact Hnd.
    + intros r Hr [Heq|Hin].
      * apply Hnotin. rewrite Heq.
        apply (List.in_map (fun record => Py.getitem record "login")). exact Hr.
      * apply (Hnew r (or_intror Hr) Hin).
    + intros k info Hk.
      destruct (String.eqb_spec k k0) as [->|Hne].
      * rewrite Hinfo' in Hk. injection Hk as <-.
        split; [exact Hcons|]. intros Hc. exfalso. apply Hc. left. exact Hlogin.
      * rewrite (Hother k Hne) in Hk. destruct (Hinv k info Hk) as [Hc Hu].
        split; [exact Hc|]. intros Hmet. apply Hu. intros Hin. apply Hmet.
        right. exact Hin.
    + intros k. destruct (String.eqb_spec k k0) as [->|Hne].
      * rewrite (info_get_entry _ _ _ _ Hinfo'), Huser. symmetry. exact Hid0.
      * rewrite <- Hid. unfold info_get. rewrite (Hother k Hne). reflexivity.
    + split; [exact Hm|]. rewrite Hlog, Hlog1, <- app_assoc. reflexivity.
Qed.

Lemma get_stream_details_run (self : TwitchApi) (streams : list json) (s : state)
    (stream_info : list (string * dict)) :
  build_stream_info streams [] = Ok stream_info ->
  get_stream_details respond self streams s
  = match enrich_from_users respond self stream_info s with
    | (Ok m, s') => (Ok m, s')
    | (Err _, s') => (Ok [], s')
    end.
Proof.
  intros H. unfold get_stream_details, bind, lift, try_except, ret. rewrite H.
  destruct (enrich_from_users respond self stream_info s) as [[m|e] s']; reflexivity.
Qed.

Lemma untouched_consistent (info : dict) : untouched info -> consistent info.
Proof.
  intros (Ht & Hf & Hv). unfold consistent. rewrite Ht, Hf, Hv.
  split; split; discriminate.
Qed.

(** C2 (amended).  For a users answer that lists each login at most once,
    in every non-empty mapping returned by [get_stream_details] the
    follower count and the video count of an entry are present exactly when
    its tier is the empty string; and after the bulk users call the only
    requests made are one follower lookup and one video lookup for each
    record whose tier is empty: a record with any other tier causes none. *)
Theorem enrichment_iff_unpartnered (self : TwitchApi) (streams : list json)
    (s : state) (stream_info : list (string * dict)) (r : json)
    (records : list json) (m : list (string * dict)) (s' : state) :
  build_stream_info streams [] = Ok stream_info ->
  respond (st_log s) (users_request self stream_info) = Ok r ->
  rbind (Py.getitem r "data") Py.iter = Ok records ->
  List.NoDup (map (fun record => Py.getitem record "login") records) ->
  get_stream_details respond self streams s = (Ok m, s') ->
  m <> [] ->
  (forall k info, Py.dict_get k m = Some info -> consistent info)
  /\ st_log s'
     = st_log s ++ users_request self stream_info
                   :: flat_map (extra_lookups self stream_info) records
  /\ (forall record t,
        Py.getitem record "broadcaster_type" = Ok t ->
        Py.eq_str t EmptyString = false ->
        extra_lookups self stream_info record = []).
Proof.
  intros Hbuild Hr Hrecords Hnd Hrun Hm.
  rewrite (get_stream_details_run self streams s stream_info Hbuild) in Hrun.
  unfold enrich_from_users, bind, send, lift in Hrun. rewrite Hr in Hrun.
  destruct (Py.getitem r "data") as [data|e]; simpl in Hrecords; [|discriminate].
  rewrite Hrecords in Hrun.
  destruct (enrich respond self records stream_info _) as [[m'|e] s1] eqn:Hloop.
  - injection Hrun as -> ->.
    destruct (enrich_spec self stream_info records stream_info _ m s' [] Hloop Hnd)
      as [Hcons Hlog].
    + intros record _ [].
    + intros k info Hk.
      pose proof (build_stream_info_untouched streams [] stream_info Hbuild) as Hu.
      assert (Huntouched : untouched info).
      { apply (Hu ltac:(intros ? ? H; discriminate H) k info Hk). }
      split; [apply untouched_consistent; exact Huntouched | intros _; exact Huntouched].
    + reflexivity.
    + split; [exact Hcons|]. split.
      * rewrite Hlog. simpl. rewrite <- app_assoc. reflexivity.
      * intros record t Ht Hpartner. unfold extra_lookups. rewrite Ht, Hpartner.
        destruct (Py.getitem record "login") as [[]|]; reflexivity.
  - injection Hrun as <- _. contradiction.
Qed.

Lemma entry_of_same_keys (cur stream_info : list (string * dict)) (login : json) :
  (forall k, Py.dict_has k cur = Py.dict_has k stream_info) ->
  entry_of cur login = entry_of stream_info login.
Proof.
  intros Hkeys. destruct login; simpl; try reflexivity. rewrite Hkeys. reflexivity.
Qed.

Lemma enrich_one_bad (self : TwitchApi) (cur : list (string * dict))
    (record : json) (s : state) :
  bad_record cur record ->
  exists e, enrich_one respond self cur record s = (Err e, s).
Proof.
  unfold enrich_one, bind, lift.
  intros [[e He] | [(login & e & Hl & He) | [[e He] | [e He]]]].
  - rewrite He. eauto.
  - rewrite Hl, He. eauto.
  - destruct (Py.getitem record "login") as [login|e1]; [|eauto].
    destruct (entry_of cur login) as [k|e1]; [|eauto].
    rewrite He. eauto.
  - destruct (Py.getitem record "login") as [login|e1]; [|eauto].
    destruct (entry_of cur login) as [k|e1]; [|eauto].
    destruct (Py.getitem record "broadcaster_type") as [t|e1]; [|eauto].
    rewrite He. eauto.
Qed.

Lemma enrich_one_keys (self : TwitchApi) (cur cur' : list (string * dict))
    (record : json) (s s' : state) :
  enrich_one respond self cur record s = (Ok cur', s') ->
  forall k, Py.dict_has k cur' = Py.dict_has k cur.
Proof.
  intros H k. apply enrich_one_spec in H.
  destruct H as (k0 & info0 & t & views & info' & _ & _ & Hinfo0 & Hinfo' & Hother & _).
  unfold Py.dict_has. destruct (String.eqb_spec k k0) as [->|Hne].
  - rewrite Hinfo0, Hinfo'. reflexivity.
  - rewrite (Hother k Hne). reflexivity.
Qed.

(** One bad record anywhere in the answer makes the whole loop raise. *)
Lemma enrich_bad (self : TwitchApi) (stream_info : list (string * dict))
    (records : list json) :
  forall (cur : list (string * dict)) (s : state),
    (forall k, Py.dict_has k cur = Py.dict_has k stream_info) ->
    (exists record, In record records /\ bad_record stream_info record) ->
    exists e s', enrich respond self records cur s = (Err e, s').
Proof.
  induction records as [|record rest IH]; intros cur s Hkeys (bad & Hin & Hbad).
  - destruct Hin.
  - simpl. unfold bind.
    destruct (enrich_one respond self cur record s) as [[cur'|e] s1] eqn:Hone;
      [|eauto].
    destruct Hin as [->|Hin].
    + assert (Hbad' : bad_record cur bad).
      { destruct Hbad as [H | [(login & e & Hl & He) | H]]; [left; exact H | | right; right; exact H].
        right. left. exists login, e. split; [exact Hl|].
        rewrite (entry_of_same_keys cur stream_info login Hkeys). exact He. }
      destruct (enrich_one_bad self cur bad s Hbad') as [e He]. congruence.
    + apply IH; [|eauto].
      intros k. rewrite (enrich_one_keys self cur cur' record s s1 Hone k). apply Hkeys.
Qed.

(** C3 (amended).  Once the initial mapping is built, [get_stream_details]
    never raises: whatever exception comes out of the bulk users call, of
    reading its answer or of any step of the loop, the call returns the
    empty mapping and drops the entries enriched so far. *)
Theorem details_empty_on_exception (self : TwitchApi) (streams : list json)
    (s : state) (stream_info : list (string * dict)) :
  build_stream_info streams [] = Ok stream_info ->
  (forall e s',
      enrich_from_users respond self stream_info s = (Err e, s') ->
      get_stream_details respond self streams s = (Ok [], s'))
  /\ (exists m, fst (get_stream_details respond self streams s) = Ok m)
  /\ (forall e,
        respond (st_log s) (users_request self stream_info) = Err e ->
        fst (get_stream_details respond self streams s) = Ok [])
  /\ (forall r e,
        respond (st_log s) (users_request self stream_info) = Ok r ->
        rbind (Py.getitem r "data") Py.iter = Err e ->
        fst (get_stream_details respond self streams s) = Ok [])
  /\ (forall r records record,
        respond (st_log s) (users_request self stream_info) = Ok r ->
        rbind (Py.getitem r "data") Py.iter = Ok records ->
        In record records ->
        bad_record stream_info record ->
        fst (get_stream_details respond self streams s) = Ok []).
Proof.
  intros Hbuild.
  rewrite (get_stream_details_run self streams s stream_info Hbuild).
  split; [|split; [|split; [|split]]].
  - intros e s' ->. reflexivity.
  - destruct (enrich_from_users respond self stream_info s) as [[m|e] s'];
      simpl; eauto.
  - intros e He. unfold enrich_from_users, bind, send. rewrite He. reflexivity.
  - intros r e Hr Hdata. unfold enrich_from_users, bind, send, lift. rewrite Hr.
    destruct (Py.getitem r "data") as [data|e1]; [|reflexivity].
    simpl in Hdata. rewrite Hdata. reflexivity.
  - intros r records record Hr Hdata Hin Hbad.
    unfold enrich_from_users, bind, send, lift. rewrite Hr.
    destruct (Py.getitem r "data") as [data|e1]; simpl in Hdata; [|discriminate].
    rewrite Hdata.
    destruct (enrich_bad self stream_info records stream_info
                (logged (users_request self stream_info) s))
      as (e & s' & Hloop); [reflexivity | eauto |].
    unfold logged in Hloop. rewrite Hloop. reflexivity.
Qed.

End Details.

Lemma enrichment_iff_unpartnered_witness :
  exists m s',
    get_stream_details
      (platform [user_record "ann" "partner"; user_record "bob" EmptyString])
      self0 sample_streams s0 = (Ok m, s')
    /\ (forall k info, Py.dict_get k m = Some info -> consistent info)
    /\ Py.dict_has "followers" <$> Py.dict_get "ann" m = Some false
    /\ Py.dict_has "followers" <$> Py.dict_get "bob" m = Some true.
Proof.
  eexists. eexists. split; [reflexivity|].
  split; [|split; reflexivity].
  eapply (enrichment_iff_unpartnered
            (platform [user_record "ann" "partner"; user_record "bob" EmptyString])
            self0 sample_streams s0).
  - reflexivity.
  - reflexivity.
  - reflexivity.
  - repeat constructor; simpl; intuition discriminate.
  - reflexivity.
  - discriminate.
Defined.

Example details_repeated_login :
  fst (get_stream_details
         (platform [user_record "ann" EmptyString; user_record "ann" "partner"])
         self0 [sample_stream "1" "Ann" 500] s0)
  = Ok [("ann",
         [("user_id", JStr "1"); ("viewer_count", JInt 500); ("title", JStr "live");
          ("thumbnail", JStr "https://t/x.jpg");
          ("started", JStr "2020-01-01T00:00:00Z"); ("display", JStr "ann");
          ("broadcaster_type", JStr "partner"); ("channel_views", JInt 12);
          ("followers", JInt 40); ("videos", JInt 3)])].
Proof. reflexivity. Qed.

(** C2 as stated fails: when the users answer holds two records for the
    login "ann", the first with the empty tier and the second with the
    tier "partner", the entry comes back with the tier "partner" and with
    the follower and video counts that the first record brought in. *)
Lemma enrichment_counterexample : ~ enrichment_on_every_response.
Proof.
  intros H.
  assert (Hbad : exists info,
             consistent info
             /\ Py.dict_has "followers" info = true
             /\ tier info = Some (JStr "partner")).
  { eexists. split; [|split].
    - eapply (H (platform [user_record "ann" EmptyString; user_record "ann" "partner"])
                self0 [sample_stream "1" "Ann" 500] s0 _ "ann").
      + reflexivity.
      + reflexivity.
    - reflexivity.
    - reflexivity. }
  destruct Hbad as (info & [Hfollowers _] & Hhas & Htier).
  apply Hfollowers in Hhas. rewrite Htier in Hhas. discriminate Hhas.
Qed.

(** The second record names a login that is no key of the mapping: the
    entry of "ann", already enriched through two lookups, is dropped with
    the rest. *)
Lemma details_empty_on_exception_witness :
  get_stream_details
    (platform [user_record "ann" EmptyString; user_record "zed" "partner"])
    self0 sample_streams s0
  = (Ok [],
     {| st_log := [users_request self0 [("ann", []); ("bob", [])];
                   follows_request self0 (JStr "1");
                   videos_request self0 (JStr "1")];
        st_dotenv := [] |})
  /\ fst (get_stream_details (always (Err ReadTimeout)) self0 sample_streams s0)
     = Ok [].
Proof.
  split.
  - eapply (proj1 (details_empty_on_exception
                     (platform [user_record "ann" EmptyString; user_record "zed" "partner"])
                     self0 sample_streams s0 _ eq_refl) KeyError).
    reflexivity.
  - eapply (proj1 (proj2 (proj2 (details_empty_on_exception
                     (always (Err ReadTimeout)) self0 sample_streams s0 _ eq_refl)))
              ReadTimeout).
    reflexivity.
Defined.

Example details_bare_stream :
  get_stream_details (always (Err ReadTimeout)) self0 [bare_stream] s0
  = (Err KeyError, s0).
Proof. reflexivity. Qed.

(** C3 as stated fails: a stream record without "user_id" makes the dict
    comprehension raise [KeyError] before the [try] is entered, and the
    exception leaves [get_stream_details]. *)
Lemma details_counterexample : ~ details_absorb_every_exception.
Proof.
  intros H.
  destruct (H (always (Err ReadTimeout)) self0 [bare_stream] s0) as [_ [m Hm]].
  vm_compute in Hm. discriminate Hm.
Qed.

(** ** Credential acquisition: the other paths *)

Section TokenPaths.

Variable getenv : string -> option string.
Variable respond : list request -> request -> result json.

Lemma get_token_cases (s : state) :
  get_token getenv respond s =
  match getenv "ACCESS_TOKEN" with
  | Some saved =>
      if Py.truthy (JStr saved) then
        match rbind (respond (st_log s) (validate_request saved))
                    (Py.contains "client_id") with
        | Err e => (Err e, logged (validate_request saved) s)
        | Ok true => (Ok saved, logged (validate_request saved) s)
        | Ok false =>
            request_new_token getenv respond (logged (validate_request saved) s)
        end
      else request_new_token getenv respond s
  | None => request_new_token getenv respond s
  end.
Proof.
  unfold get_token. destruct (getenv "ACCESS_TOKEN") as [saved|]; [|reflexivity].
  destruct (Py.truthy (JStr saved)); [|reflexivity].
  unfold bind, send, lift, ret, logged.
  destruct (respond (st_log s) (validate_request saved)) as [r|e]; [|reflexivity].
  simpl. destruct (Py.contains "client_id" r) as [[|]|e]; reflexivity.
Qed.

(** What a token request leaves behind, however it ends. *)
Lemma request_new_token_frame (s : state) :
  st_log (snd (request_new_token getenv respond s))
    = st_log s ++ [token_request getenv]
  /\ (forall k, k <> "ACCESS_TOKEN" ->
        Py.dict_get k (st_dotenv (snd (request_new_token getenv respond s)))
        = Py.dict_get k (st_dotenv s))
  /\ (forall e, fst (request_new_token getenv respond s) = Err e ->
        st_dotenv (snd (request_new_token getenv respond s)) = st_dotenv s)
  /\ (forall t, fst (request_new_token getenv respond s) = Ok t ->
        Py.dict_get "ACCESS_TOKEN"
          (st_dotenv (snd (request_new_token getenv respond s))) = Some t).
Proof.
  rewrite request_new_token_run. cbv zeta. unfold logged.
  destruct (respond (st_log s) (token_request getenv)) as [r|e];
    [|split; [|split; [|split]]; intros; (reflexivity || discriminate)].
  destruct (Py.contains "access_token" r) as [[|]|e];
    try (split; [|split; [|split]]; intros; (reflexivity || discriminate)).
  destruct (Py.getitem r "access_token") as [[| | |t| |]|e];
    try (split; [|split; [|split]]; intros; (reflexivity || discriminate)).
  cbn [fst snd st_log st_dotenv]. split; [reflexivity|]. split; [|split].
  - intros k Hk. rewrite dict_get_set.
    destruct (String.eqb_spec k "ACCESS_TOKEN"); [contradiction | reflexivity].
  - discriminate.
  - intros t' H. injection H as <-. rewrite dict_get_set. reflexivity.
Qed.

(** X1.  With no stored token, or an empty one, [get_token] makes no
    validation call: the token request is the only request, and a string
    token in its answer is returned and written to the store. *)
Theorem token_requested_without_validation (s : state) :
  getenv "ACCESS_TOKEN" = None \/ getenv "ACCESS_TOKEN" = Some EmptyString ->
  st_log (snd (get_token getenv respond s)) = st_log s ++ [token_request getenv]
  /\ forall d t,
      respond (st_log s) (token_request getenv) = Ok (JDict d) ->
      Py.dict_get "access_token" d = Some (JStr t) ->
      get_token getenv respond s
      = (Ok t,
         {| st_log := st_log s ++ [token_request getenv];
            st_dotenv := Py.dict_set "ACCESS_TOKEN" t (st_dotenv s) |}).
Proof.
  intros Henv.
  assert (Hdirect : get_token getenv respond s = request_new_token getenv respond s).
  { rewrite get_token_cases. destruct Henv as [-> | ->]; reflexivity. }
  rewrite Hdirect. split.
  - apply request_new_token_frame.
  - intros d t Hr Ht. rewrite request_new_token_run. cbv zeta.
    rewrite Hr. simpl. unfold Py.dict_has. rewrite Ht. reflexivity.
Qed.

(** X2.  With a stored token, an exception of the validation call, or of
    the test for "client_id" in its answer, leaves [get_token] as it is:
    no token request follows and the store is not written. *)
Theorem validation_failure_propagates (saved : string) (s : state) (e : exn) :
  getenv "ACCESS_TOKEN" = Some saved ->
  saved <> EmptyString ->
  rbind (respond (st_log s) (validate_request saved)) (Py.contains "client_id")
    = Err e ->
  get_token getenv respond s = (Err e, logged (validate_request saved) s).
Proof.
  intros Henv Hsaved Hfail. rewrite get_token_cases, Henv.
  replace (Py.truthy (JStr saved)) with true
    by (simpl; destruct (String.eqb_spec saved EmptyString);
        [contradiction | reflexivity]).
  rewrite Hfail. reflexivity.
Qed.

Lemma get_token_outcome (s : state) :
  (exists extra,
      st_log (snd (get_token getenv respond s)) = st_log s ++ extra
      /\ (length extra <= 2)%nat
      /\ (refresh_calls extra <= 1)%nat)
  /\ (forall k, k <> "ACCESS_TOKEN" ->
        Py.dict_get k (st_dotenv (snd (get_token getenv respond s)))
        = Py.dict_get k (st_dotenv s))
  /\ (forall e, fst (get_token getenv respond s) = Err e ->
        st_dotenv (snd (get_token getenv respond s)) = st_dotenv s)
  /\ (forall t, fst (get_token getenv respond s) = Ok t ->
        (getenv "ACCESS_TOKEN" = Some t
         /\ st_dotenv (snd (get_token getenv respond s)) = st_dotenv s)
        \/ Py.dict_get "ACCESS_TOKEN"
             (st_dotenv (snd (get_token getenv respond s))) = Some t).
Proof.
  rewrite get_token_cases.
  assert (Hfresh : forall s1 pre,
             st_log s1 = st_log s ++ pre ->
             st_dotenv s1 = st_dotenv s ->
             (length pre <= 1)%nat ->
             refresh_calls pre = 0%nat ->
             (exists extra,
                 st_log (snd (request_new_token getenv respond s1)) = st_log s ++ extra
                 /\ (length extra <= 2)%nat /\ (refresh_calls extra <= 1)%nat)
             /\ (forall k, k <> "ACCESS_TOKEN" ->
                   Py.dict_get k (st_dotenv (snd (request_new_token getenv respond s1)))
                   = Py.dict_get k (st_dotenv s))
             /\ (forall e, fst (request_new_token getenv respond s1) = Err e ->
                   st_dotenv (snd (request_new_token getenv respond s1)) = st_dotenv s)
             /\ (forall t, fst (request_new_token getenv respond s1) = Ok t ->
                   (getenv "ACCESS_TOKEN" = Some t
                    /\ st_dotenv (snd (request_new_token getenv respond s1))
                       = st_dotenv s)
                   \/ Py.dict_get "ACCESS_TOKEN"
                        (st_dotenv (snd (request_new_token getenv respond s1)))
                      = Some t)).
  { intros s1 pre Hlog Hfile Hlen Hcalls.
    destruct (request_new_token_frame s1) as (Hl & Hk & He & Ht).
    rewrite <- Hfile. split; [|split; [exact Hk | split; [exact He|]]].
    - exists (pre ++ [token_request getenv]). split; [|split].
      + rewrite Hl, Hlog, <- app_assoc. reflexivity.
      + rewrite length_app. simpl. lia.
      + rewrite refresh_calls_app, Hcalls. reflexivity.
    - intros t H. right. apply Ht. exact H. }
  assert (Hdirect := Hfresh s [] ltac:(rewrite app_nil_r; reflexivity) eq_refl
                            ltac:(simpl; lia) eq_refl).
  destruct (getenv "ACCESS_TOKEN") as [saved|]; [|exact Hdirect].
  destruct (Py.truthy (JStr saved)); [|exact Hdirect].
  destruct (rbind _ _) as [[|]|e].
  - cbn [fst snd]. unfold logged. cbn [st_log st_dotenv].
    split; [|split; [reflexivity | split; [discriminate|]]].
    + exists [validate_request saved]. split; [reflexivity|]. split; [simpl; lia|].
      change (refresh_calls [validate_request saved]) with 0%nat. lia.
    + intros t H. injection H as <-. left. split; reflexivity.
  - apply (Hfresh (logged (validate_request saved) s) [validate_request saved]);
      [reflexivity | reflexivity | simpl; lia | reflexivity].
  - cbn [fst snd]. unfold logged. cbn [st_log st_dotenv].
    split; [|split; [reflexivity | split; [reflexivity | discriminate]]].
    exists [validate_request saved]. split; [reflexivity|]. split; [simpl; lia|].
    change (refresh_calls [validate_request saved]) with 0%nat. lia.
Qed.

(** X3.  Whatever the environment and the platform, [get_token] makes at
    most two requests, at most one of them a token request (it never
    retries); it writes no key of the store other than ACCESS_TOKEN, and
    when it raises it has written nothing. *)
Theorem get_token_frame (s : state) :
  (exists extra,
      st_log (snd (get_token getenv respond s)) = st_log s ++ extra
      /\ (length extra <= 2)%nat
      /\ (refresh_calls extra <= 1)%nat)
  /\ (forall k, k <> "ACCESS_TOKEN" ->
        Py.dict_get k (st_dotenv (snd (get_token getenv respond s)))
        = Py.dict_get k (st_dotenv s))
  /\ (forall e, fst (get_token getenv respond s) = Err e ->
        st_dotenv (snd (get_token getenv respond s)) = st_dotenv s).
Proof.
  destruct (get_token_outcome s) as (Hlog & Hkeys & Herr & _).
  split; [exact Hlog | split; [exact Hkeys | exact Herr]].
Qed.

(** X4.  When [__init__] returns a client, its Authorization header is
    "Bearer " followed by a token that is either the stored token, with
    the store left as it was, or the value now under ACCESS_TOKEN in the
    store; the same token is kept in [app_info], and the Client-ID header
    is the CLIENT_ID of the environment. *)
Theorem init_credentials (s s' : state) (self : TwitchApi) :
  __init__ getenv respond s = (Ok self, s') ->
  exists t,
    Py.dict_get "Authorization" (headers self)
      = Some (JStr (String.append "Bearer " t))
    /\ Py.dict_get "token" (app_info self) = Some (JStr t)
    /\ Py.dict_get "Client-ID" (headers self)
       = Some (none_or_str (getenv "CLIENT_ID"))
    /\ ((getenv "ACCESS_TOKEN" = Some t /\ st_dotenv s' = st_dotenv s)
        \/ Py.dict_get "ACCESS_TOKEN" (st_dotenv s') = Some t).
Proof.
  unfold __init__, bind, ret.
  destruct (get_token_outcome s) as (_ & _ & _ & Hok).
  destruct (get_token getenv respond s) as [[t|e] s2]; [|discriminate].
  intros H. injection H as <- <-. exists t.
  split; [reflexivity|]. split; [reflexivity|]. split; [reflexivity|].
  apply (Hok t eq_refl).
Qed.

End TokenPaths.

Lemma token_requested_without_validation_witness :
  get_token env_without_token renewing s0
  = (Ok "new",
     {| st_log := [token_request env_without_token];
        st_dotenv := [("ACCESS_TOKEN", "new")] |}).
Proof.
  apply (proj2 (token_requested_without_validation env_without_token renewing s0
                  (or_introl eq_refl))
           [("access_token", JStr "new"); ("expires_in", JInt 5000)] "new");
    reflexivity.
Defined.

Lemma validation_failure_propagates_witness :
  get_token env_with_token (always (Err ReadTimeout)) s0
    = (Err ReadTimeout, logged (validate_request "old") s0)
  /\ get_token env_with_token (always (Ok JNull)) s0
    = (Err TypeError, logged (validate_request "old") s0).
Proof.
  split.
  - apply (validation_failure_propagates env_with_token (always (Err ReadTimeout))
             "old" s0 ReadTimeout eq_refl); [discriminate | reflexivity].
  - apply (validation_failure_propagates env_with_token (always (Ok JNull))
             "old" s0 TypeError eq_refl); [discriminate | reflexivity].
Defined.

Lemma get_token_frame_witness :
  Py.dict_get "CLIENT_ID" (st_dotenv (snd (get_token env_with_token renewing s1)))
    = Some "app"
  /\ st_dotenv (snd (get_token env_with_token refusing s1)) = st_dotenv s1.
Proof.
  split.
  - apply (proj1 (proj2 (get_token_frame env_with_token renewing s1)) "CLIENT_ID").
    discriminate.
  - apply (proj2 (proj2 (get_token_frame env_with_token refusing s1))
             (SystemExit "Unable to generate access token")).
    reflexivity.
Defined.

Lemma init_credentials_witness :
  exists t,
    Py.dict_get "Authorization"
      (headers {| app_info := [("Client-ID", JStr "app"); ("client_secret", JStr "secret");
                               ("token", JStr "new")];
                  headers := [("Client-ID", JStr "app");
                              ("Authorization", JStr "Bearer new")] |})
      = Some (JStr (String.append "Bearer " t))
    /\ Py.dict_get "ACCESS_TOKEN" [("CLIENT_ID", "app"); ("ACCESS_TOKEN", "new")]
       = Some t.
Proof.
  destruct (init_credentials env_with_token renewing s1
              {| st_log := [validate_request "old"; token_request env_with_token];
                 st_dotenv := [("CLIENT_ID", "app"); ("ACCESS_TOKEN", "new")] |}
              {| app_info := [("Client-ID", JStr "app"); ("client_secret", JStr "secret");
                              ("token", JStr "new")];
                 headers := [("Client-ID", JStr "app");
                             ("Authorization", JStr "Bearer new")] |}
              eq_refl) as (t & Hauth & _ & _ & [[Hold _] | Hnew]).
  - exists t. split; [exact Hauth|]. injection Hold as <-.
    simpl in Hauth. discriminate Hauth.
  - exists t. split; [exact Hauth | exact Hnew].
Defined.

(** ** Stream listing and counts: what escapes and what comes back *)

Section ListingEdges.

Variable respond : list request -> request -> result json.

Lemma filter_raising_type_error {A : Type} (p : A -> result bool) (l : list A) :
  (forall x, In x l -> (exists b, p x = Ok b) \/ p x = Err TypeError) ->
  (exists x, In x l /\ p x = Err TypeError) ->
  Py.filter_raising p l = Err TypeError.
Proof.
  induction l as [|x l IH]; intros Hall (bad & Hin & Hbad).
  - destruct Hin.
  - simpl. destruct (Hall x (or_introl eq_refl)) as [[b Hb] | Hx].
    + rewrite Hb. simpl.
      destruct Hin as [-> | Hin]; [congruence|].
      rewrite IH; [reflexivity | | eauto].
      intros y Hy. apply Hall. right. exact Hy.
    + rewrite Hx. reflexivity.
Qed.

Lemma gt_not_numeric (v : json) (n : Z) :
  numeric v = false -> Py.gt v n = Err TypeError.
Proof. destruct v; simpl; intros H; (discriminate || reflexivity). Qed.

Lemma gt_outcome (v : json) (n : Z) :
  (exists b, Py.gt v n = Ok b) \/ Py.gt v n = Err TypeError.
Proof. destruct v; simpl; eauto. Qed.


(** X6.  When every record of the answer has a "viewer_count" and one of
    them is not a number (a string, null, a list or an object),
    [get_top_streams] raises [TypeError]: the handler does not turn this
    into an empty list. *)
Theorem top_streams_non_numeric_count (self : TwitchApi) (s : state) (r : json)
    (data : list json) :
  respond (st_log s) (streams_request self) = Ok r ->
  Py.getitem r "data" = Ok (JList data) ->
  (forall x, In x data -> exists v, Py.getitem x "viewer_count" = Ok v) ->
  (exists x v, In x data /\ Py.getitem x "viewer_count" = Ok v /\ numeric v = false) ->
  get_top_streams respond self s = (Err TypeError, logged (streams_request self) s).
Proof.
  intros Hr Hdata Hall (bad & v & Hin & Hv & Hnum).
  rewrite get_top_streams_run, Hr. cbn [rbind].
  unfold streams_over_100. rewrite Hdata. cbn [rbind Py.iter].
  rewrite (filter_raising_type_error over_100 data); [reflexivity | |].
  - intros x Hx. destruct (Hall x Hx) as [w Hw]. unfold over_100. rewrite Hw.
    apply gt_outcome.
  - exists bad. split; [exact Hin|]. unfold over_100. rewrite Hv.
    apply gt_not_numeric. exact Hnum.
Qed.

(** X7.  [get_video_count] always returns a non-negative integer; for an
    answer whose "data" is a list it is the length of that list. *)
Theorem video_count_is_length (self : TwitchApi) (user_id : json) (s : state) :
  (exists n, fst (get_video_count respond self user_id s) = Ok (JInt n) /\ 0 <= n)
  /\ (forall r items,
        respond (st_log s) (videos_request self user_id) = Ok r ->
        Py.getitem r "data" = Ok (JList items) ->
        fst (get_video_count respond self user_id s)
        = Ok (JInt (Z.of_nat (length items)))).
Proof.
  rewrite get_video_count_run. cbn [fst]. split.
  - destruct (respond (st_log s) (videos_request self user_id)) as [r|e];
      cbn [rbind]; [|exists 10000; split; [reflexivity | lia]].
    unfold data_length.
    destruct (Py.getitem r "data") as [data|e]; cbn [rbind];
      [|exists 10000; split; [reflexivity | lia]].
    destruct data; cbn [Py.len rbind];
      first [ eexists; split; [reflexivity | lia] ].
  - intros r items Hr Hdata. rewrite Hr. cbn [rbind]. unfold data_length.
    rewrite Hdata. reflexivity.
Qed.

End ListingEdges.


Lemma top_streams_non_numeric_count_witness :
  get_top_streams (always (Ok quoted_count_response)) self0 s0
  = (Err TypeError, logged (streams_request self0) s0).
Proof.
  apply (top_streams_non_numeric_count (always (Ok quoted_count_response)) self0 s0
           quoted_count_response
           [sample_stream "1" "Ann" 500;
            JDict [("user_name", JStr "Bob"); ("viewer_count", JStr "150")]]).
  - reflexivity.
  - reflexivity.
  - intros x [<- | [<- | []]]; eexists; reflexivity.
  - exists (JDict [("user_name", JStr "Bob"); ("viewer_count", JStr "150")]),
      (JStr "150").
    split; [simpl; auto | split; reflexivity].
Defined.

Lemma video_count_is_length_witness :
  fst (get_video_count (platform []) self0 (JStr "1") s0) = Ok (JInt 3).
Proof.
  apply (proj2 (video_count_is_length (platform []) self0 (JStr "1") s0)
           (JDict [("data", JList [JDict []; JDict []; JDict []])])
           [JDict []; JDict []; JDict []]);
    reflexivity.
Defined.

(** ** Stream details: keys, batching and what enrichment keeps *)

Section DictKeys.

Context {V : Type}.

Lemma dict_has_keys (k : string) (d : list (string * V)) :
  Py.dict_has k d = true <-> In k (map fst d).
Proof.
  unfold Py.dict_has. induction d as [|[k1 v1] d IH]; simpl.
  - split; [discriminate | intros []].
  - destruct (String.eqb_spec k k1) as [->|Hne].
    + split; [intros _; left; reflexivity | reflexivity].
    + rewrite IH. split; [intros H; right; exact H | intros [H|H]; [congruence | exact H]].
Qed.

Lemma dict_set_keys (k : string) (v : V) (d : list (string * V)) :
  map fst (Py.dict_set k v d)
  = if Py.dict_has k d then map fst d else map fst d ++ [k].
Proof.
  unfold Py.dict_has. induction d as [|[k1 v1] d IH]; simpl.
  - reflexivity.
  - destruct (String.eqb_spec k k1) as [->|Hne]; simpl.
    + reflexivity.
    + rewrite IH. destruct (Py.dict_get k d); reflexivity.
Qed.

Lemma dict_set_keys_nodup (k : string) (v : V) (d : list (string * V)) :
  List.NoDup (map fst d) -> List.NoDup (map fst (Py.dict_set k v d)).
Proof.
  intros Hnd. rewrite dict_set_keys.
  destruct (Py.dict_has k d) eqn:Hhas; [exact Hnd|].
  apply List.NoDup_app; [exact Hnd | repeat constructor; intros [] |].
  intros x Hx [<-|[]]. apply dict_has_keys in Hx. congruence.
Qed.

Lemma dict_set_keys_in (k k' : string) (v : V) (d : list (string * V)) :
  In k (map fst (Py.dict_set k' v d)) <-> k = k' \/ In k (map fst d).
Proof.
  rewrite <- !dict_has_keys, dict_has_set.
  destruct (String.eqb_spec k k') as [->|Hne].
  - split; auto.
  - split; [auto | intros [H|H]; [contradiction | exact H]].
Qed.

End DictKeys.

Lemma summary_fields (x : json) (k : string) (info : dict) :
  summary x = Ok (k, info) ->
  exists name,
    Py.getitem x "user_name" = Ok (JStr name)
    /\ k = Py.lower_string name
    /\ Py.dict_get "display" info = Some (JStr k)
    /\ Py.dict_has "user_id" info = true.
Proof.
  unfold summary.
  destruct (Py.getitem x "user_name") as [name|e]; cbn [rbind]; [|discriminate].
  destruct name as [| | |name| |]; cbn [Py.lower rbind]; try discriminate.
  repeat match goal with
         | |- context [rbind ?r _] => destruct r; cbn [rbind]; [|discriminate]
         end.
  intros H. injection H as <- <-. exists name. repeat split.
Qed.

Lemma build_stream_info_app (pre post : list json) :
  forall acc stream_info,
    build_stream_info (pre ++ post) acc = Ok stream_info ->
    exists mid, build_stream_info pre acc = Ok mid
                /\ build_stream_info post mid = Ok stream_info.
Proof.
  induction pre as [|x pre IH]; simpl; intros acc stream_info H.
  - eauto.
  - destruct (summary x) as [[k info]|e]; simpl in *; [|discriminate].
    apply IH. exact H.
Qed.

(** Streams with other names leave an entry alone. *)
Lemma build_stream_info_other (k : string) (streams : list json) :
  forall acc stream_info,
    build_stream_info streams acc = Ok stream_info ->
    (forall y k' info', In y streams -> summary y = Ok (k', info') -> k' <> k) ->
    Py.dict_get k stream_info = Py.dict_get k acc.
Proof.
  induction streams as [|x streams IH]; simpl; intros acc stream_info H Hother.
  - injection H as <-. reflexivity.
  - destruct (summary x) as [[k1 info1]|e] eqn:Hsum; simpl in H; [|discriminate].
    rewrite (IH _ _ H); [|intros y k' info' Hy; apply Hother; right; exact Hy].
    rewrite dict_get_set.
    destruct (String.eqb_spec k k1) as [->|]; [|reflexivity].
    exfalso. apply (Hother x k1 info1 (or_introl eq_refl) Hsum). reflexivity.
Qed.

Lemma build_stream_info_keys (streams : list json) :
  forall acc stream_info,
    build_stream_info streams acc = Ok stream_info ->
    (List.NoDup (map fst acc) -> List.NoDup (map fst stream_info))
    /\ (forall k, In k (map fst stream_info) <->
                  In k (map fst acc)
                  \/ exists x name, In x streams
                                    /\ Py.getitem x "user_name" = Ok (JStr name)
                                    /\ k = Py.lower_string name).
Proof.
  induction streams as [|x streams IH]; simpl; intros acc stream_info H.
  - injection H as <-. split; [auto|]. intros k. split; [auto|].
    intros [Hk | (y & name & [] & _)]. exact Hk.
  - destruct (summary x) as [[k1 info1]|e] eqn:Hsum; simpl in H; [|discriminate].
    destruct (summary_fields x k1 info1 Hsum) as (name1 & Hname1 & Hk1 & _).
    destruct (IH _ _ H) as [Hnd Hin]. split.
    + intros Hacc. apply Hnd. apply dict_set_keys_nodup. exact Hacc.
    + intros k. rewrite Hin, dict_set_keys_in. split.
      * intros [[-> | Hk] | (y & name & Hy & Hn & Hl)].
        -- right. exists x, name1. auto.
        -- left. exact Hk.
        -- right. exists y, name. auto.
      * intros [Hk | (y & name & [<- | Hy] & Hn & Hl)].
        -- left. right. exact Hk.
        -- left. left. rewrite Hname1 in Hn. injection Hn as <-. congruence.
        -- right. exists y, name. auto.
Qed.

Lemma build_stream_info_entries (streams : list json) :
  forall acc stream_info,
    build_stream_info streams acc = Ok stream_info ->
    (forall k info, Py.dict_get k acc = Some info ->
                    Py.dict_get "display" info = Some (JStr k)
                    /\ Py.dict_has "user_id" info = true) ->
    forall k info, Py.dict_get k stream_info = Some info ->
                   Py.dict_get "display" info = Some (JStr k)
                   /\ Py.dict_has "user_id" info = true.
Proof.
  induction streams as [|x streams IH]; simpl; intros acc stream_info H Hacc.
  - injection H as <-. exact Hacc.
  - destruct (summary x) as [[k1 info1]|e] eqn:Hsum; simpl in H; [|discriminate].
    apply (IH _ _ H). intros k info. rewrite dict_get_set.
    destruct (String.eqb_spec k k1) as [->|]; [|apply Hacc].
    intros Hk. injection Hk as <-.
    destruct (summary_fields x k1 info1 Hsum) as (_ & _ & _ & Hd & Hu). auto.
Qed.

(** X9.  When several input streams have user names that are equal once
    lower-cased, they share one entry of the initial mapping, and it holds
    the summary of the last of them. *)
Theorem last_stream_wins (pre post : list json) (x : json) (k : string)
    (info : dict) (stream_info : list (string * dict)) :
  build_stream_info (pre ++ x :: post) [] = Ok stream_info ->
  summary x = Ok (k, info) ->
  (forall y k' info', In y post -> summary y = Ok (k', info') -> k' <> k) ->
  Py.dict_get k stream_info = Some info
  /\ List.NoDup (map fst stream_info).
Proof.
  intros Hbuild Hsum Hpost.
  destruct (build_stream_info_keys _ _ _ Hbuild) as [Hnd _].
  split; [|apply Hnd; constructor].
  apply build_stream_info_app in Hbuild. destruct Hbuild as (mid & _ & Hrest).
  simpl in Hrest. rewrite Hsum in Hrest. simpl in Hrest.
  rewrite (build_stream_info_other k post _ _ Hrest Hpost).
  rewrite dict_get_set, String.eqb_refl. reflexivity.
Qed.

Lemma last_stream_wins_witness :
  exists stream_info info,
    build_stream_info [sample_stream "1" "Ann" 500; sample_stream "9" "ANN" 700] []
      = Ok stream_info
    /\ Py.dict_get "ann" stream_info = Some info
    /\ Py.dict_get "user_id" info = Some (JStr "9")
    /\ map fst stream_info = ["ann"].
Proof.
  eexists. eexists. split; [reflexivity|]. split.
  - apply (proj1 (last_stream_wins [sample_stream "1" "Ann" 500] []
                    (sample_stream "9" "ANN" 700) "ann" _ _ eq_refl eq_refl
                    ltac:(intros ? ? ? []))).
  - split; reflexivity.
Defined.

Section DetailsMore.

Variable respond : list request -> request -> result json.

Lemma info_set_keys (k0 field : string) (v : json)
    (stream_info : list (string * dict)) :
  map fst (info_set k0 field v stream_info) = map fst stream_info.
Proof.
  unfold info_set. destruct (Py.dict_get k0 stream_info) as [info|] eqn:Hget;
    [|reflexivity].
  rewrite dict_set_keys. unfold Py.dict_has. rewrite Hget. reflexivity.
Qed.

Lemma not_enrichment_field (f : string) :
  ~ In f enrichment_fields ->
  String.eqb f "broadcaster_type" = false
  /\ String.eqb f "channel_views" = false
  /\ String.eqb f "followers" = false
  /\ String.eqb f "videos" = false.
Proof.
  unfold enrichment_fields. intros H.
  repeat split; apply String.eqb_neq; intros ->; apply H; simpl; auto.
Qed.

(** One pass of the loop body, with everything it reads and writes. *)
Lemma enrich_one_full (self : TwitchApi) (stream_info stream_info' : list (string * dict))
    (record : json) (s s' : state) :
  enrich_one respond self stream_info record s = (Ok stream_info', s') ->
  exists k0 info0 t v info',
    Py.getitem record "login" = Ok (JStr k0)
    /\ Py.getitem record "broadcaster_type" = Ok t
    /\ Py.getitem record "view_count" = Ok v
    /\ Py.dict_get k0 stream_info = Some info0
    /\ Py.dict_get k0 stream_info' = Some info'
    /\ (forall k, k <> k0 -> Py.dict_get k stream_info' = Py.dict_get k stream_info)
    /\ map fst stream_info' = map fst stream_info
    /\ tier info' = Some t
    /\ Py.dict_get "channel_views" info' = Some v
    /\ (forall f, ~ In f enrichment_fields ->
                  Py.dict_get f info' = Py.dict_get f info0).
Proof.
  unfold enrich_one, bind, lift, ret.
  destruct (Py.getitem record "login") as [login|e] eqn:Hlogin; [|discriminate].
  destruct (entry_of stream_info login) as [k0|e] eqn:Hentry; [|discriminate].
  apply entry_of_ok in Hentry. destruct Hentry as [-> [info0 Hinfo0]].
  destruct (Py.getitem record "broadcaster_type") as [t|e] eqn:Ht; [|discriminate].
  destruct (Py.getitem record "view_count") as [v|e] eqn:Hv; [|discriminate].
  pose proof (info_set_same k0 "broadcaster_type" t _ _ Hinfo0) as H1.
  pose proof (info_set_same k0 "channel_views" v _ _ H1) as H2.
  rewrite (info_get_entry _ "broadcaster_type" _ _ H2).
  rewrite (info_get_entry _ "user_id" _ _ H2).
  rewrite !dict_get_set. cbn [String.eqb Ascii.eqb Bool.eqb].
  destruct (Py.eq_str t EmptyString).
  - destruct (Py.dict_get "user_id" info0) as [user_id|] eqn:Huid; [|discriminate].
    destruct (get_follower_count_returns respond self user_id s) as [followers ->].
    pose proof (info_set_same k0 "followers" followers _ _ H2) as H3.
    rewrite (info_get_entry _ "user_id" _ _ H3).
    rewrite !dict_get_set. cbn [String.eqb Ascii.eqb Bool.eqb]. rewrite Huid.
    destruct (get_video_count_returns respond self user_id
                (logged (follows_request self user_id) s)) as [videos ->].
    pose proof (info_set_same k0 "videos" videos _ _ H3) as H4.
    intros H. injection H as <- <-.
    exists k0, info0, t, v. eexists.
    split; [reflexivity|]. split; [reflexivity|]. split; [reflexivity|].
    split; [exact Hinfo0|]. split; [exact H4|]. split; [|split; [|split; [|split]]].
    + intros k Hk. rewrite !info_set_other by exact Hk. reflexivity.
    + rewrite !info_set_keys. reflexivity.
    + unfold tier. rewrite !dict_get_set. reflexivity.
    + rewrite !dict_get_set. reflexivity.
    + intros f Hf. destruct (not_enrichment_field f Hf) as (Ha & Hb & Hc & Hd).
      rewrite !dict_get_set, Ha, Hb, Hc, Hd. reflexivity.
  - intros H. injection H as <- <-.
    exists k0, info0, t, v. eexists.
    split; [reflexivity|]. split; [reflexivity|]. split; [reflexivity|].
    split; [exact Hinfo0|]. split; [exact H2|]. split; [|split; [|split; [|split]]].
    + intros k Hk. rewrite !info_set_other by exact Hk. reflexivity.
    + rewrite !info_set_keys. reflexivity.
    + unfold tier. rewrite !dict_get_set. reflexivity.
    + rewrite !dict_get_set. reflexivity.
    + intros f Hf. destruct (not_enrichment_field f Hf) as (Ha & Hb & _ & _).
      rewrite !dict_get_set, Ha, Hb. reflexivity.
Qed.

(** The loop body raises before any lookup, or not at all. *)
Lemma enrich_one_raises (self : TwitchApi) (stream_info : list (string * dict))
    (record : json) (s s' : state) (e : exn) :
  enrich_one respond self stream_info record s = (Err e, s') -> s' = s.
Proof.
  unfold enrich_one, bind, lift, ret.
  destruct (Py.getitem record "login") as [login|e1];
    [|intros H; injection H as _ <-; reflexivity].
  destruct (entry_of stream_info login) as [k0|e1] eqn:Hentry;
    [|intros H; injection H as _ <-; reflexivity].
  apply entry_of_ok in Hentry. destruct Hentry as [-> [info0 Hinfo0]].
  destruct (Py.getitem record "broadcaster_type") as [t|e1];
    [|intros H; injection H as _ <-; reflexivity].
  destruct (Py.getitem record "view_count") as [v|e1];
    [|intros H; injection H as _ <-; reflexivity].
  pose proof (info_set_same k0 "broadcaster_type" t _ _ Hinfo0) as H1.
  pose proof (info_set_same k0 "channel_views" v _ _ H1) as H2.
  rewrite (info_get_entry _ "broadcaster_type" _ _ H2).
  rewrite (info_get_entry _ "user_id" _ _ H2).
  rewrite !dict_get_set. cbn [String.eqb Ascii.eqb Bool.eqb].
  destruct (Py.eq_str t EmptyString); [|discriminate].
  destruct (Py.dict_get "user_id" info0) as [user_id|] eqn:Huid;
    [|intros H; injection H as _ <-; reflexivity].
  destruct (get_follower_count_returns respond self user_id s) as [followers ->].
  pose proof (info_set_same k0 "followers" followers _ _ H2) as H3.
  rewrite (info_get_entry _ "user_id" _ _ H3).
  rewrite !dict_get_set. cbn [String.eqb Ascii.eqb Bool.eqb]. rewrite Huid.
  destruct (get_video_count_returns respond self user_id
              (logged (follows_request self user_id) s)) as [videos ->].
  discriminate.
Qed.

Lemma enrich_one_log (self : TwitchApi) (cur : list (string * dict))
    (record : json) (s : state) :
  exists extra,
    st_log (snd (enrich_one respond self cur record s)) = st_log s ++ extra
    /\ forallb is_lookup extra = true.
Proof.
  destruct (enrich_one respond self cur record s) as [[cur'|e] s'] eqn:Hone.
  - apply enrich_one_spec in Hone.
    destruct Hone as (k0 & info0 & t & views & info' & _ & _ & _ & _ & _ & Hcase).
    destruct Hcase as [(_ & _ & ->) | (_ & user_id & f & v & _ & _ & Hlog & _)].
    + exists []. split; [rewrite app_nil_r; reflexivity | reflexivity].
    + exists [follows_request self user_id; videos_request self user_id].
      split; [exact Hlog | reflexivity].
  - apply enrich_one_raises in Hone. subst s'.
    exists []. split; [rewrite app_nil_r; reflexivity | reflexivity].
Qed.

Lemma enrich_log (self : TwitchApi) (records : list json) :
  forall (cur : list (string * dict)) (s : state),
  exists extra,
    st_log (snd (enrich respond self records cur s)) = st_log s ++ extra
    /\ forallb is_lookup extra = true.
Proof.
  induction records as [|record rest IH]; intros cur s; simpl.
  - exists []. split; [rewrite app_nil_r; reflexivity | reflexivity].
  - unfold bind.
    destruct (enrich_one_log self cur record s) as (extra1 & Hlog1 & Hall1).
    destruct (enrich_one respond self cur record s) as [[cur'|e] s1].
    + destruct (IH cur' s1) as (extra2 & Hlog2 & Hall2).
      exists (extra1 ++ extra2). split.
      * rewrite Hlog2. simpl in Hlog1. rewrite Hlog1, <- app_assoc. reflexivity.
      * rewrite forallb_app, Hall1, Hall2. reflexivity.
    + exists extra1. split; assumption.
Qed.

(** X8.  [get_stream_details] makes the bulk users call first and once:
    its parameters are one login per distinct lower-cased user name of the
    input, and every request after it is a follower or video lookup. *)
Theorem one_bulk_call (self : TwitchApi) (streams : list json) (s : state)
    (stream_info : list (string * dict)) :
  build_stream_info streams [] = Ok stream_info ->
  List.NoDup (map fst stream_info)
  /\ (forall k, In k (map fst stream_info) <->
                exists x name, In x streams
                               /\ Py.getitem x "user_name" = Ok (JStr name)
                               /\ k = Py.lower_string name)
  /\ rq_payload (users_request self stream_info)
     = JList (map (fun k => JList [JStr "login"; JStr k]) (map fst stream_info))
  /\ exists rest,
      st_log (snd (get_stream_details respond self streams s))
      = st_log s ++ users_request self stream_info :: rest
      /\ forallb is_lookup rest = true.
Proof.
  intros Hbuild.
  destruct (build_stream_info_keys streams [] stream_info Hbuild) as [Hnd Hin].
  split; [apply Hnd; constructor|]. split; [|split].
  - intros k. rewrite Hin. split; [intros [[]|H]; exact H | auto].
  - simpl. rewrite map_map. reflexivity.
  - rewrite (get_stream_details_run respond self streams s stream_info Hbuild).
    unfold enrich_from_users, bind, send, lift.
    assert (Hnone : exists rest : list request,
               st_log s ++ [users_request self stream_info]
               = st_log s ++ users_request self stream_info :: rest
               /\ forallb is_lookup rest = true)
      by (exists []; split; reflexivity).
    destruct (respond (st_log s) (users_request self stream_info)) as [r|e];
      [|exact Hnone].
    destruct (Py.getitem r "data") as [data|e]; cbn [fst snd]; [|exact Hnone].
    destruct (Py.iter data) as [records|e]; cbn [fst snd]; [|exact Hnone].
    destruct (enrich_log self records stream_info
                {| st_log := st_log s ++ [users_request self stream_info];
                   st_dotenv := st_dotenv s |}) as (rest & Hlog & Hall).
    exists rest. split; [|exact Hall].
    destruct (enrich respond self records stream_info _) as [[m|e] s'];
      cbn [fst snd st_log] in *; rewrite Hlog, <- app_assoc; reflexivity.
Qed.

Lemma enrich_keeps (self : TwitchApi) (records : list json) :
  forall (cur m : list (string * dict)) (s s' : state),
    enrich respond self records cur s = (Ok m, s') ->
    map fst m = map fst cur
    /\ forall k info,
        Py.dict_get k m = Some info ->
        exists info0,
          Py.dict_get k cur = Some info0
          /\ forall f, ~ In f enrichment_fields ->
                       Py.dict_get f info = Py.dict_get f info0.
Proof.
  induction records as [|record rest IH]; simpl; intros cur m s s' Hrun.
  - unfold ret in Hrun. injection Hrun as <- <-. split; [reflexivity|]. eauto.
  - unfold bind in Hrun.
    destruct (enrich_one respond self cur record s) as [[cur'|e] s1] eqn:Hone;
      [|discriminate].
    apply enrich_one_full in Hone.
    destruct Hone as (k0 & info0 & t & v & info' & _ & _ & _ & Hinfo0 & Hinfo'
                      & Hother & Hkeys & _ & _ & Hsame).
    destruct (IH cur' m s1 s' Hrun) as [Hkm Hfields].
    split; [rewrite Hkm; exact Hkeys|].
    intros k info Hk. destruct (Hfields k info Hk) as (info1 & Hk1 & Hf1).
    destruct (String.eqb_spec k k0) as [->|Hne].
    + rewrite Hinfo' in Hk1. injection Hk1 as <-.
      exists info0. split; [exact Hinfo0|].
      intros f Hf. rewrite (Hf1 f Hf). apply Hsame. exact Hf.
    + rewrite (Hother k Hne) in Hk1. eauto.
Qed.

(** X10.  In a non-empty mapping returned by [get_stream_details] the keys
    are those of the initial mapping, in the same order; every entry keeps
    the summary fields it was seeded with, and its "display" is its key:
    enrichment writes only the tier, the view count, the follower count
    and the video count. *)
Theorem enrichment_keeps_summaries (self : TwitchApi) (streams : list json)
    (s s' : state) (stream_info m : list (string * dict)) :
  build_stream_info streams [] = Ok stream_info ->
  get_stream_details respond self streams s = (Ok m, s') ->
  m <> [] ->
  map fst m = map fst stream_info
  /\ forall k info,
      Py.dict_get k m = Some info ->
      Py.dict_get "display" info = Some (JStr k)
      /\ exists info0,
          Py.dict_get k stream_info = Some info0
          /\ forall f, ~ In f enrichment_fields ->
                       Py.dict_get f info = Py.dict_get f info0.
Proof.
  intros Hbuild Hrun Hm.
  rewrite (get_stream_details_run respond self streams s stream_info Hbuild) in Hrun.
  unfold enrich_from_users, bind, send, lift in Hrun.
  destruct (respond (st_log s) (users_request self stream_info)) as [r|e];
    [|injection Hrun as <- _; contradiction].
  destruct (Py.getitem r "data") as [data|e];
    [|injection Hrun as <- _; contradiction].
  destruct (Py.iter data) as [records|e];
    [|injection Hrun as <- _; contradiction].
  destruct (enrich respond self records stream_info _) as [[m'|e] s1] eqn:Hloop;
    [|injection Hrun as <- _; contradiction].
  injection Hrun as -> ->.
  destruct (enrich_keeps self records _ _ _ _ Hloop) as [Hkeys Hfields].
  split; [exact Hkeys|].
  intros k info Hk. destruct (Hfields k info Hk) as (info0 & Hk0 & Hf).
  split; [|eauto].
  rewrite (Hf "display"); [|unfold enrichment_fields; simpl; intuition discriminate].
  apply (build_stream_info_entries streams [] stream_info Hbuild
           ltac:(intros ? ? H; discriminate H) k info0 Hk0).
Qed.

End DetailsMore.

Lemma one_bulk_call_witness :
  exists stream_info rest,
    build_stream_info sample_streams [] = Ok stream_info
    /\ st_log (snd (get_stream_details
                      (platform [user_record "ann" "partner";
                                 user_record "bob" EmptyString])
                      self0 sample_streams s0))
       = st_log s0 ++ users_request self0 stream_info :: rest
    /\ forallb is_lookup rest = true.
Proof.
  eexists.
  destruct (one_bulk_call
              (platform [user_record "ann" "partner"; user_record "bob" EmptyString])
              self0 sample_streams s0 _ eq_refl) as (_ & _ & _ & rest & Hlog & Hall).
  exists rest. split; [reflexivity|]. split; [exact Hlog | exact Hall].
Defined.

Lemma enrichment_keeps_summaries_witness :
  exists m s',
    get_stream_details
      (platform [user_record "bob" EmptyString]) self0 sample_streams s0 = (Ok m, s')
    /\ map fst m = ["ann"; "bob"]
    /\ forall k info, Py.dict_get k m = Some info ->
                      Py.dict_get "display" info = Some (JStr k).
Proof.
  eexists. eexists. split; [reflexivity|].
  destruct (enrichment_keeps_summaries
              (platform [user_record "bob" EmptyString]) self0 sample_streams s0
              _ _ _ eq_refl eq_refl ltac:(discriminate)) as [Hkeys Hentries].
  split; [exact Hkeys|].
  intros k info Hk. apply (Hentries k info Hk).
Defined.

Section DetailsOutcome.

Variable respond : list request -> request -> result json.





Lemma enrich_attach (self : TwitchApi) (records : list json) :
  forall (cur m : list (string * dict)) (s s' : state),
    enrich respond self records cur s = (Ok m, s') ->
    List.NoDup (map (fun record => Py.getitem record "login") records) ->
    (forall record k t v,
        In record records ->
        Py.getitem record "login" = Ok (JStr k) ->
        Py.getitem record "broadcaster_type" = Ok t ->
        Py.getitem record "view_count" = Ok v ->
        exists info,
          Py.dict_get k m = Some info
          /\ tier info = Some t
          /\ Py.dict_get "channel_views" info = Some v)
    /\ (forall k,
          (forall record, In record records ->
                          Py.getitem record "login" <> Ok (JStr k)) ->
          Py.dict_get k m = Py.dict_get k cur).
Proof.
  induction records as [|record rest IH]; simpl; intros cur m s s' Hrun Hnd.
  - unfold ret in Hrun. injection Hrun as <- <-.
    split; [intros ? ? ? ? [] | reflexivity].
  - unfold bind in Hrun.
    destruct (enrich_one respond self cur record s) as [[cur'|e] s1] eqn:Hone;
      [|discriminate].
    apply enrich_one_full in Hone.
    destruct Hone as (k0 & info0 & t0 & v0 & info' & Hlogin & Ht0 & Hv0 & _ & Hinfo'
                      & Hother & _ & Htier & Hviews & _).
    apply List.NoDup_cons_iff in Hnd. destruct Hnd as [Hnotin Hnd].
    destruct (IH cur' m s1 s' Hrun Hnd) as [Hrecs Hrest].
    split.
    + intros rec k t v [<- | Hin] Hl Ht Hv.
      * rewrite Hlogin in Hl. injection Hl as <-.
        rewrite Ht0 in Ht. injection Ht as <-.
        rewrite Hv0 in Hv. injection Hv as <-.
        exists info'. split; [|split; assumption].
        rewrite Hrest; [exact Hinfo'|].
        intros r Hr Heq. apply Hnotin. rewrite Hlogin, <- Heq.
        apply (List.in_map (fun record => Py.getitem record "login")). exact Hr.
      * apply (Hrecs rec k t v Hin Hl Ht Hv).
    + intros k Hk. rewrite Hrest; [|intros r Hr; apply Hk; right; exact Hr].
      apply Hother. intros ->. apply (Hk record (or_introl eq_refl)). exact Hlogin.
Qed.

(** X12.  For a users answer that lists each login at most once, a
    non-empty mapping returned by [get_stream_details] holds, for every
    record of the answer, that record's tier and view count in the entry
    of its login; and an entry that no record names is exactly the entry
    built from the stream summary. *)
Theorem enrichment_attaches_record (self : TwitchApi) (streams : list json)
    (s s' : state) (stream_info m : list (string * dict)) (r : json)
    (records : list json) :
  build_stream_info streams [] = Ok stream_info ->
  respond (st_log s) (users_request self stream_info) = Ok r ->
  rbind (Py.getitem r "data") Py.iter = Ok records ->
  List.NoDup (map (fun record => Py.getitem record "login") records) ->
  get_stream_details respond self streams s = (Ok m, s') ->
  m <> [] ->
  (forall record k t v,
      In record records ->
      Py.getitem record "login" = Ok (JStr k) ->
      Py.getitem record "broadcaster_type" = Ok t ->
      Py.getitem record "view_count" = Ok v ->
      exists info,
        Py.dict_get k m = Some info
        /\ tier info = Some t
        /\ Py.dict_get "channel_views" info = Some v)
  /\ (forall k,
        (forall record, In record records ->
                        Py.getitem record "login" <> Ok (JStr k)) ->
        Py.dict_get k m = Py.dict_get k stream_info).
Proof.
  intros Hbuild Hr Hrecords Hnd Hrun Hm.
  rewrite (get_stream_details_run respond self streams s stream_info Hbuild) in Hrun.
  unfold enrich_from_users, bind, send, lift in Hrun. rewrite Hr in Hrun.
  destruct (Py.getitem r "data") as [data|e]; simpl in Hrecords; [|discriminate].
  rewrite Hrecords in Hrun.
  destruct (enrich respond self records stream_info _) as [[m'|e] s1] eqn:Hloop;
    [|injection Hrun as <- _; contradiction].
  injection Hrun as -> ->.
  apply (enrich_attach self records _ _ _ _ Hloop Hnd).
Qed.

Lemma enrich_one_no_entries (self : TwitchApi) (record : json) (s : state) :
  exists e, enrich_one respond self [] record s = (Err e, s).
Proof.
  unfold enrich_one, bind, lift.
  destruct (Py.getitem record "login") as [login|e]; [|eauto].
  destruct login; simpl; eauto.
Qed.

(** X13.  For an empty list of streams [get_stream_details] still makes
    the bulk call, with no login parameter, and returns the empty mapping
    whatever the platform answers; no lookup follows. *)
Theorem details_of_no_streams (self : TwitchApi) (s : state) :
  get_stream_details respond self [] s
  = (Ok [], logged (users_request self []) s)
  /\ rq_payload (users_request self []) = JList [].
Proof.
  split; [|reflexivity].
  rewrite (get_stream_details_run respond self [] s [] eq_refl).
  unfold enrich_from_users, bind, send, lift, logged.
  destruct (respond (st_log s) (users_request self [])) as [r|e]; [|reflexivity].
  destruct (Py.getitem r "data") as [data|e]; [|reflexivity].
  destruct (Py.iter data) as [[|record rest]|e]; [reflexivity | | reflexivity].
  simpl. unfold bind.
  destruct (enrich_one_no_entries self record
              {| st_log := st_log s ++ [users_request self []];
                 st_dotenv := st_dotenv s |}) as [e ->].
  reflexivity.
Qed.

End DetailsOutcome.


Lemma enrichment_attaches_record_witness :
  exists m s' info,
    get_stream_details (platform [user_record "bob" "affiliate"])
      self0 sample_streams s0 = (Ok m, s')
    /\ Py.dict_get "bob" m = Some info
    /\ tier info = Some (JStr "affiliate")
    /\ Py.dict_get "channel_views" info = Some (JInt 12)
    /\ (tier <$> Py.dict_get "ann" m) = Some None.
Proof.
  eexists. eexists.
  destruct (enrichment_attaches_record
              (platform [user_record "bob" "affiliate"]) self0 sample_streams s0
              _ _ _ (JDict [("data", JList [user_record "bob" "affiliate"])])
              [user_record "bob" "affiliate"]
              eq_refl eq_refl eq_refl
              ltac:(repeat constructor; simpl; intuition discriminate)
              eq_refl ltac:(discriminate)) as [Hrec Hrest].
  destruct (Hrec (user_record "bob" "affiliate") "bob" (JStr "affiliate") (JInt 12)
              (or_introl eq_refl) eq_refl eq_refl eq_refl) as (info & Hk & Ht & Hv).
  exists info. split; [reflexivity|]. split; [exact Hk|]. split; [exact Ht|].
  split; [exact Hv|].
  rewrite (Hrest "ann"); [reflexivity|].
  intros record [<- | []]. discriminate.
Defined.

(** ** Panel links: where the links come from *)

Section PanelLinksMore.

Variable respond : list request -> request -> result json.
Variable findall : string -> list string.
Variable set_order : list json -> list json.
Hypothesis set_order_perm : forall l, Permutation (set_order l) l.

Lemma panel_links_spec (acc links : list json) (panel : json) :
  panel_links findall acc panel = Ok links ->
  forall x, In x links <-> In x acc \/ from_panel findall panel x.
Proof.
  unfold panel_links, from_panel.
  destruct (Py.getitem panel "linkURL") as [url|e]; cbn [rbind]; [|discriminate].
  destruct (Py.getitem panel "description") as [desc|e]; cbn [rbind]; [|discriminate].
  assert (Hlinks : forall x,
             In x (if Py.truthy url then acc ++ [url] else acc)
             <-> In x acc \/ (Ok url = Ok x /\ Py.truthy x = true)).
  { intros x. destruct (Py.truthy url) eqn:Hturl.
    - rewrite in_app_iff. simpl. split.
      + intros [H | [<- | []]]; auto.
      + intros [H | [H _]]; [auto | injection H as <-; auto].
    - split; [auto|]. intros [H | [Hx H]]; [exact H|].
      injection Hx as <-. congruence. }
  destruct (Py.truthy desc) eqn:Hdesc.
  - destruct desc as [| | |d| |]; cbn [re_findall rbind]; try discriminate.
    intros H x.
    assert (Hin : In x links <->
                  In x (if Py.truthy url then acc ++ [url] else acc)
                  \/ In x (map JStr (findall d))).
    { destruct (map JStr (findall d)) as [|y ys] eqn:Hm; injection H as <-.
      - simpl. tauto.
      - rewrite in_app_iff. reflexivity. }
    rewrite Hin, Hlinks, in_map_iff.
    assert (Hd : d <> EmptyString).
    { simpl in Hdesc. intros ->. discriminate. }
    split.
    + intros [[Ha | Hu] | (u & <- & Hu)]; auto.
      right. right. exists d, u. auto.
    + intros [Ha | [Hu | (d' & u & Hd' & _ & -> & Hu)]]; auto.
      injection Hd' as <-. right. exists u. auto.
  - intros H x. injection H as <-. rewrite Hlinks. split.
    + intros [Ha | Hu]; auto.
    + intros [Ha | [Hu | (d' & u & Hd' & Hne & _)]]; auto.
      injection Hd' as ->. simpl in Hdesc.
      destruct (String.eqb_spec d' EmptyString); [contradiction | discriminate].
Qed.

Lemma collect_links_spec (items : list json) :
  forall acc links,
    collect_links findall items acc = Ok links ->
    forall x, In x links <->
              In x acc \/ exists panel, In panel items /\ from_panel findall panel x.
Proof.
  induction items as [|panel rest IH]; simpl; intros acc links H x.
  - injection H as <-. split; [auto | intros [Hx | (p & [] & _)]; exact Hx].
  - destruct (panel_links findall acc panel) as [links'|e] eqn:Hp; simpl in H;
      [|discriminate].
    rewrite (IH _ _ H x), (panel_links_spec _ _ _ Hp x). split.
    + intros [[Ha | Hf] | (p & Hin & Hf)]; eauto.
    + intros [Ha | (p & [<- | Hin] & Hf)]; eauto.
Qed.

(** X14.  Whatever the number of panels, every link returned by
    [get_panel_links] is a non-empty "linkURL" of some panel or a match of
    the URL pattern in some panel's non-empty description; and every such
    URL string is returned. *)
Theorem panel_links_sources (user_id : json) (s : state) (r : json)
    (items l : list json) :
  respond (st_log s) (panels_request user_id) = Ok r ->
  rbind (panels_of r) Py.iter = Ok items ->
  fst (get_panel_links respond findall set_order user_id s) = Ok l ->
  (forall x, In x l -> exists panel, In panel items /\ from_panel findall panel x)
  /\ (forall panel u, In panel items -> from_panel findall panel (JStr u) ->
                      In (JStr u) l).
Proof.
  intros Hr Hitems. rewrite get_panel_links_run, Hr. cbn [fst].
  destruct (panels_of r) as [panels|e]; cbn [rbind] in *; [|discriminate].
  rewrite Hitems. cbn [rbind].
  destruct (collect_links findall items []) as [links|e] eqn:Hc; cbn [rbind];
    [|discriminate].
  intros Hl.
  destruct (list_set_spec set_order set_order_perm links l Hl) as (_ & Hsub & Hcov).
  pose proof (collect_links_spec items [] links Hc) as Hspec.
  split.
  - intros x Hx. apply Hsub, Hspec in Hx. destruct Hx as [[] | Hx]. exact Hx.
  - intros panel u Hin Hfrom.
    destruct (Hcov (JStr u) (HStr u)) as (y & Hy & Hky); [|reflexivity|].
    + apply Hspec. right. eauto.
    + apply hash_key_str in Hky. subst y. exact Hy.
Qed.

Lemma set_from_texts (l : list json) :
  forall seen,
    Forall (fun x => exists t, x = JStr t) l ->
    exists l', set_from seen l = Ok l'.
Proof.
  induction l as [|x l IH]; intros seen Hall; simpl; [eauto|].
  inversion Hall as [|? ? [t ->] Hrest]; subst. simpl.
  destruct (IH (HStr t :: seen) Hrest) as [rest ->]. simpl. eauto.
Qed.

Lemma panel_links_plain (acc : list json) (panel : json) :
  plain_panel panel ->
  Forall (fun x => exists t, x = JStr t) acc ->
  exists links, panel_links findall acc panel = Ok links
                /\ Forall (fun x => exists t, x = JStr t) links.
Proof.
  intros (url & desc & Hu & Hd & Htu & Htd) Hacc.
  unfold panel_links. rewrite Hu, Hd. cbn [rbind].
  assert (Hlinks : Forall (fun x => exists t, x = JStr t)
                     (if Py.truthy url then acc ++ [url] else acc)).
  { destruct url; try discriminate Htu; simpl; [exact Hacc|].
    destruct (negb _); [|exact Hacc].
    apply Forall_app. split; [exact Hacc | repeat constructor; eauto]. }
  destruct desc as [| | |d| |]; try discriminate Htd; cbn [Py.truthy]; [eauto|].
  destruct (negb _); [|eauto]. cbn [re_findall rbind].
  destruct (map JStr (findall d)) as [|y ys] eqn:Hm; [eauto|].
  eexists. split; [reflexivity|]. apply Forall_app. split; [exact Hlinks|].
  rewrite <- Hm. apply List.Forall_forall. intros x Hx. apply in_map_iff in Hx.
  destruct Hx as (t & <- & _). eauto.
Qed.

Lemma collect_links_plain (items : list json) :
  forall acc,
    Forall plain_panel items ->
    Forall (fun x => exists t, x = JStr t) acc ->
    exists links, collect_links findall items acc = Ok links
                  /\ Forall (fun x => exists t, x = JStr t) links.
Proof.
  induction items as [|panel rest IH]; intros acc Hitems Hacc; simpl; [eauto|].
  inversion Hitems as [|? ? Hp Hrest]; subst.
  destruct (panel_links_plain acc panel Hp Hacc) as (links' & -> & Hl). simpl.
  apply IH; assumption.
Qed.

(** X15.  For an answer with the panel structure, in which every panel's
    link and description is a string or null, [get_panel_links] returns a
    list and raises nothing; with no panel at all the list is empty. *)
Theorem panel_links_returns (user_id : json) (s : state) (r : json)
    (items : list json) :
  respond (st_log s) (panels_request user_id) = Ok r ->
  panels_of r = Ok (JList items) ->
  Forall plain_panel items ->
  (exists l, fst (get_panel_links respond findall set_order user_id s) = Ok l)
  /\ (items = [] ->
      fst (get_panel_links respond findall set_order user_id s) = Ok []).
Proof.
  intros Hr Hpanels Hplain. rewrite get_panel_links_run, Hr, Hpanels.
  cbn [fst rbind Py.iter]. split.
  - destruct (collect_links_plain items [] Hplain (List.Forall_nil _)) as (links & -> & Hl).
    cbn [rbind]. unfold list_set.
    destruct (set_from_texts links [] Hl) as [elems ->]. cbn [rbind]. eauto.
  - intros ->. cbn [collect_links rbind]. unfold list_set. cbn [set_from rbind].
    f_equal. apply Permutation_nil. apply Permutation_sym. apply set_order_perm.
Qed.

End PanelLinksMore.

Lemma panel_links_sources_witness :
  exists l,
    fst (get_panel_links
           (always (Ok (panels_response
                          [null_panel;
                           sample_panel "https://shop.tv"
                             "see https://a.com and www.b.org";
                           sample_panel "https://shop.tv" "no link here"])))
           sample_findall id (JStr "7") s0) = Ok l
    /\ In (JStr "https://shop.tv") l
    /\ In (JStr "www.b.org") l
    /\ length l = 3%nat.
Proof.
  eexists. split; [reflexivity|].
  destruct (panel_links_sources
              (always (Ok (panels_response
                             [null_panel;
                              sample_panel "https://shop.tv"
                                "see https://a.com and www.b.org";
                              sample_panel "https://shop.tv" "no link here"])))
              sample_findall id (fun l => Permutation_refl l) (JStr "7") s0
              _ _ _ eq_refl eq_refl eq_refl) as [_ Hall].
  split; [|split; [|reflexivity]].
  - apply (Hall (sample_panel "https://shop.tv" "no link here")).
    + simpl. auto.
    + left. split; reflexivity.
  - apply (Hall (sample_panel "https://shop.tv"
                   "see https://a.com and www.b.org")).
    + simpl. auto.
    + right. exists "see https://a.com and www.b.org", "www.b.org".
      split; [reflexivity|]. split; [discriminate|]. split; [reflexivity|].
      simpl. auto.
Defined.

Lemma panel_links_returns_witness :
  fst (get_panel_links (always (Ok (panels_response []))) sample_findall id
         (JStr "7") s0) = Ok []
  /\ exists l,
      fst (get_panel_links (always (Ok (panels_response [null_panel; null_panel])))
             sample_findall id (JStr "7") s0) = Ok l.
Proof.
  split.
  - apply (proj2 (panel_links_returns (always (Ok (panels_response [])))
                    sample_findall id (fun l => Permutation_refl l) (JStr "7") s0
                    (panels_response []) [] eq_refl eq_refl (List.Forall_nil _))).
    reflexivity.
  - apply (proj1 (panel_links_returns
                    (always (Ok (panels_response [null_panel; null_panel])))
                    sample_findall id (fun l => Permutation_refl l) (JStr "7") s0
                    (panels_response [null_panel; null_panel])
                    [null_panel; null_panel] eq_refl eq_refl
                    ltac:(repeat constructor;
                          exists JNull, JNull; repeat split))).
Defined.
